(** * FastGPT knowledge-base client: a shallow embedding of [fastgpt.py]

    The development follows the Python source [src/fastgpt.py]:
    - [Py]      : the pieces of the Python runtime and standard library the
                  client relies on (strings, JSON values, [urllib.parse],
                  [os.path], exceptions);
    - [ModelConfig], [DatasetDetail] : the response data classes;
    - [World]   : the file system and the network, made explicit as a state
                  and an environment, and computations that may raise;
    - [Client]  : [FastGPTKnowledgeBase] itself;
    - [Examples]: the vocabulary of the properties and the concrete calls
                  they are tried on.

    Strings are byte strings: a Python [str] is represented by its UTF-8
    encoding, so that ["不支持"] is nine bytes long. *)

From Stdlib Require Import ZArith Ascii String.
From stdpp Require Import gmap strings list fin_maps pretty.

Set Warnings "-register-all".
Open Scope string_scope.

(* ===================================================================== *)
(** * The Python runtime                                                   *)
(* ===================================================================== *)

Module Py.

(** ** Strings *)

(** [s.startswith(p)] *)
Definition startswith (s p : string) : bool := String.prefix p s.

(** [c in s] for a one-character string [c] *)
Fixpoint in_str (c : ascii) (s : string) : bool :=
  match s with
  | "" => false
  | String x r => Ascii.eqb x c || in_str c r
  end.

(** [s.split(sep)] for a one-character separator: never empty. *)
Fixpoint split (sep : ascii) (s : string) : list string :=
  match s with
  | "" => [""]
  | String c r =>
      if Ascii.eqb c sep then "" :: split sep r
      else match split sep r with
           | h :: t => String c h :: t
           | [] => [String c ""]
           end
  end.

(** [l[-1]] on the result of a [split] *)
Definition last_item (l : list string) : string := default "" (last l).

(** [sep.join(l)] *)
Definition join (sep : string) (l : list string) : string := String.concat sep l.

Definition is_upper (c : ascii) : bool :=
  (65 <=? N_of_ascii c)%N && (N_of_ascii c <=? 90)%N.
Definition is_lower (c : ascii) : bool :=
  (97 <=? N_of_ascii c)%N && (N_of_ascii c <=? 122)%N.
Definition is_digit (c : ascii) : bool :=
  (48 <=? N_of_ascii c)%N && (N_of_ascii c <=? 57)%N.
Definition is_alpha (c : ascii) : bool := is_upper c || is_lower c.

Definition lower_ascii (c : ascii) : ascii :=
  if is_upper c then ascii_of_N (N_of_ascii c + 32) else c.

(** [s.lower()] on ASCII.  Only the letters A-Z are mapped; the bytes of a
    non-ASCII character are left alone, where Python maps them by the
    Unicode tables and by context (a final sigma).  For a name with
    non-ASCII letters the extension printed in a message can therefore
    differ from Python's.  No character outside ASCII lower-cases to one of
    the letters used by the allowed extensions, so membership in the
    allow-set is decided as in Python. *)
Fixpoint lower (s : string) : string :=
  match s with
  | "" => ""
  | String c r => String (lower_ascii c) (lower r)
  end.

(** [s.rstrip(c)] *)
Fixpoint rstrip (c : ascii) (s : string) : string :=
  match s with
  | "" => ""
  | String x r =>
      match rstrip c r with
      | "" => if Ascii.eqb x c then "" else String x ""
      | r' => String x r'
      end
  end.

(** the part of [s] before the first [c] (all of [s] when there is none) *)
Fixpoint before (c : ascii) (s : string) : string :=
  match s with
  | "" => ""
  | String x r => if Ascii.eqb x c then "" else String x (before c r)
  end.

(** [sub in s] as a proposition *)
Definition substring_of (sub s : string) : Prop :=
  ∃ pre post, s = pre +:+ sub +:+ post.

(** ** [urllib.parse.quote] and [unquote] *)

Definition hex_digit (n : N) : ascii :=
  if (n <? 10)%N then ascii_of_N (48 + n) else ascii_of_N (55 + n).

Definition hex_val (c : ascii) : option N :=
  let n := N_of_ascii c in
  if is_digit c then Some (n - 48)%N
  else if (65 <=? n)%N && (n <=? 70)%N then Some (n - 55)%N
  else if (97 <=? n)%N && (n <=? 102)%N then Some (n - 87)%N
  else None.

(** [_ALWAYS_SAFE]: letters, digits and [_.-~] *)
Definition always_safe (c : ascii) : bool :=
  is_alpha c || is_digit c || in_str c "_.-~".

Definition percent (c : ascii) : string :=
  String "%" (String (hex_digit (N_of_ascii c / 16))
             (String (hex_digit (N_of_ascii c mod 16)) "")).

(** [quote(s, safe=safe)]: every byte of the UTF-8 encoding that is neither
    always safe nor listed in [safe] becomes [%XX]. *)
Fixpoint quote (s safe : string) : string :=
  match s with
  | "" => ""
  | String c r =>
      (if always_safe c || in_str c safe then String c "" else percent c)
      +:+ quote r safe
  end.

(** [unquote(s)]: each [%XX] with two hexadecimal digits becomes the byte
    [XX]; any other [%] is kept.  Python then decodes the bytes as UTF-8
    with [errors='replace']; a malformed sequence, which Python would turn
    into U+FFFD, stays as it is here. *)
Fixpoint unquote (s : string) : string :=
  match s with
  | "" => ""
  | String c r =>
      if Ascii.eqb c "%" then
        match r with
        | String a (String b r') =>
            match hex_val a, hex_val b with
            | Some x, Some y => String (ascii_of_N (16 * x + y)) (unquote r')
            | _, _ => String c (unquote r)
            end
        | _ => String c (unquote r)
        end
      else String c (unquote r)
  end.

(** ** [urllib.parse.urlparse(url).path] *)

(** [_UNSAFE_URL_BYTES_TO_REMOVE]: tab, carriage return and line feed are
    deleted from the URL before it is split. *)
Fixpoint remove_unsafe (s : string) : string :=
  match s with
  | "" => ""
  | String c r =>
      if in_str c (String "009" (String "010" (String "013" "")))
      then remove_unsafe r else String c (remove_unsafe r)
  end.

Definition scheme_char (c : ascii) : bool :=
  is_alpha c || is_digit c || in_str c "+-.".

Fixpoint all_chars (p : ascii → bool) (s : string) : bool :=
  match s with
  | "" => true
  | String c r => p c && all_chars p r
  end.

(** the text after the first [c]; [None] when [c] does not occur *)
Fixpoint after (c : ascii) (s : string) : option string :=
  match s with
  | "" => None
  | String x r => if Ascii.eqb x c then Some r else after c r
  end.

(** the scheme and the rest of the URL, as [urlsplit] separates them *)
Definition split_scheme (url : string) : string * string :=
  match url, after ":" url with
  | String c0 _, Some rest =>
      let sch := before ":" url in
      if is_alpha c0 && all_chars scheme_char sch
      then (lower sch, rest) else ("", url)
  | _, _ => ("", url)
  end.

(** [_splitnetloc(url, 2)]: what follows the network location, which ends
    at the first of [/], [?] and [#]. *)
Fixpoint skip_netloc (s : string) : string :=
  match s with
  | "" => ""
  | String c r => if in_str c "/?#" then s else skip_netloc r
  end.

(** [_splitnetloc(url, 2)]: the network location itself *)
Fixpoint take_netloc (s : string) : string :=
  match s with
  | "" => ""
  | String c r => if in_str c "/?#" then "" else String c (take_netloc r)
  end.

(** [s.isascii()] *)
Definition isascii (s : string) : bool :=
  all_chars (λ c, (N_of_ascii c <? 128)%N) s.

Definition uses_params : list string :=
  [""; "ftp"; "hdl"; "prospero"; "http"; "imap"; "https"; "shttp"; "rtsp";
   "rtspu"; "sip"; "sips"; "mms"; "sftp"; "tel"].

(** [_splitparams(url)[0]]: the path is cut at the first [;] that is not
    followed by a [/]. *)
Fixpoint splitparams (url : string) : string :=
  match url with
  | "" => ""
  | String c r =>
      if Ascii.eqb c ";" && negb (in_str "/" r) then ""
      else String c (splitparams r)
  end.

(** The network location that [urlsplit] separates: what follows [//]
    after the scheme, and nothing when the rest does not start with [//]. *)
Definition url_netloc (url : string) : string :=
  let url := remove_unsafe url in
  let '(_, url) := split_scheme url in
  match url with
  | String "/" (String "/" r) => take_netloc r
  | _ => ""
  end.

(** The path component of the result, when [urlparse] returns one; whether
    it returns is decided on the network location, see [urlparse_path]. *)
Definition url_path (url : string) : string :=
  let url := remove_unsafe url in
  let '(scheme, url) := split_scheme url in
  let url :=
    match url with
    | String "/" (String "/" r) => skip_netloc r
    | _ => url
    end in
  let url := before "#" url in
  let url := before "?" url in
  if bool_decide (scheme ∈ uses_params) && in_str ";" url
  then splitparams url else url.

(** [urlsplit]'s first check of the network location: one bracket without
    the other *)
Definition unmatched_bracket (netloc : string) : bool :=
  in_str "[" netloc && negb (in_str "]" netloc)
  || in_str "]" netloc && negb (in_str "[" netloc).

(** the network locations on which [urlsplit] runs a further check: a
    bracketed host ([_check_bracketed_netloc]) and a location that is not
    ASCII ([_checknetloc], under NFKC normalisation) *)
Definition checked_netloc (netloc : string) : bool :=
  in_str "[" netloc && in_str "]" netloc || negb (isascii netloc).

(** [os.path.basename] of [posixpath] *)
Definition basename (p : string) : string := last_item (split "/" p).

(** ** JSON values, as [json.loads] and [response.json()] deliver them.
    Numbers are integers; an object is a finite map, so the insertion order
    of a Python [dict] is not kept. *)
Inductive json :=
| JNull
| JBool (b : bool)
| JNum (z : Z)
| JStr (s : string)
| JArr (l : list json)
| JObj (m : gmap string json).

(** truth value of [v] in a condition *)
Definition truthy (v : json) : bool :=
  match v with
  | JNull => false
  | JBool b => b
  | JNum z => negb (z =? 0)%Z
  | JStr s => negb (String.eqb s "")
  | JArr l => negb (Nat.eqb (length l) 0)
  | JObj m => negb (Nat.eqb (size m) 0)
  end.

(** [v == n] for an integer literal [n] ([True == 1] and [False == 0]) *)
Definition eq_int (v : json) (n : Z) : bool :=
  match v with
  | JNum z => (z =? n)%Z
  | JBool b => ((if b then 1 else 0) =? n)%Z
  | _ => false
  end.

(** [v in l] for a list of integer literals *)
Definition in_ints (v : json) (l : list Z) : bool := existsb (eq_int v) l.

(** [type(v).__name__] *)
Definition type_name (v : json) : string :=
  match v with
  | JNull => "NoneType"
  | JBool _ => "bool"
  | JNum _ => "int"
  | JStr _ => "str"
  | JArr _ => "list"
  | JObj _ => "dict"
  end.

(** [d.get(k)] and [d.get(k, dflt)] on a dict *)
Definition dict_get (d : gmap string json) (k : string) : json :=
  default JNull (d !! k).
Definition dict_get_or (d : gmap string json) (k : string) (dflt : json) : json :=
  default dflt (d !! k).

(** truth value of an [Optional[str]] and of an [Optional[List[str]]] *)
Definition truthy_str (o : option string) : bool :=
  match o with
  | Some s => negb (String.eqb s "")
  | None => false
  end.
Definition truthy_list {A} (o : option (list A)) : bool :=
  match o with
  | Some (_ :: _) => true
  | _ => false
  end.

(** ** Exceptions and results *)

Inductive exn_kind :=
| ValueError | FileNotFoundError | OSError | KeyError | TypeError
| AttributeError | HTTPError | RequestException | JSONDecodeError
| Exception.

Global Instance exn_kind_eq_dec : EqDecision exn_kind.
Proof. solve_decision. Defined.

(** an exception object: its class and [str(e)] *)
Record exn := Exn { kind : exn_kind; msg : string }.

Inductive result (A : Type) :=
| Return (a : A)
| Raise (e : exn).
Global Arguments Return {A} a.
Global Arguments Raise {A} e.

(** [v[k]] for a string key [k].  [str(KeyError(k))] is the [repr] of the
    key; the wording of the [TypeError] is CPython's. *)
Definition getitem (v : json) (k : string) : result json :=
  match v with
  | JObj m =>
      match m !! k with
      | Some x => Return x
      | None => Raise (Exn KeyError ("'" +:+ k +:+ "'"))
      end
  | JStr _ => Raise (Exn TypeError "string indices must be integers, not 'str'")
  | JArr _ =>
      Raise (Exn TypeError "list indices must be integers or slices, not str")
  | _ => Raise (Exn TypeError ("'" +:+ type_name v +:+ "' object is not subscriptable"))
  end.

End Py.

(* ===================================================================== *)
(** * Response data classes                                                *)
(* ===================================================================== *)

(** A dataclass does not check the types of its fields at run time: a field
    holds whatever JSON value the response carried. *)

Module ModelConfig.
Record t := Make {
  model : Py.json;
  name : Py.json;
  charsPointsPrice : Py.json;
  defaultToken : Py.json
}.

(** [ModelConfig( **v )]: the mapping must have the four field names as
    its keys and no other; otherwise the constructor raises [TypeError]
    ([None]). *)
Definition from_kwargs (v : Py.json) : option t :=
  match v with
  | Py.JObj d =>
      match d !! "model", d !! "name",
            d !! "charsPointsPrice", d !! "defaultToken" with
      | Some m, Some n, Some c, Some k =>
          if Nat.eqb (size d) 4 then Some (Make m n c k) else None
      | _, _, _, _ => None
      end
  | _ => None
  end.
End ModelConfig.

Module DatasetDetail.
Record t := Make {
  id : Py.json;
  parentId : Py.json;
  type : Py.json;
  name : Py.json;
  avatar : Py.json;
  intro : Py.json;
  status : Py.json;
  permission : Py.json;
  vectorModel : ModelConfig.t;
  agentModel : ModelConfig.t;
  canWrite : Py.json;
  isOwner : Py.json
}.

(** [DatasetDetail.from_dict(data)]; [None] when one of the two
    [ModelConfig] constructor calls raises [TypeError]. *)
Definition from_dict (data : gmap string Py.json) : option t :=
  match ModelConfig.from_kwargs
          (Py.dict_get_or data "vectorModel" (Py.JObj ∅)) with
  | None => None
  | Some vm =>
      match ModelConfig.from_kwargs
              (Py.dict_get_or data "agentModel" (Py.JObj ∅)) with
      | None => None
      | Some am =>
          Some {| id := Py.dict_get_or data "_id" (Py.JStr "");
                  parentId := Py.dict_get data "parentId";
                  type := Py.dict_get_or data "type" (Py.JStr "dataset");
                  name := Py.dict_get_or data "name" (Py.JStr "");
                  avatar := Py.dict_get_or data "avatar" (Py.JStr "");
                  intro := Py.dict_get_or data "intro" (Py.JStr "");
                  status := Py.dict_get_or data "status" (Py.JStr "");
                  permission := Py.dict_get_or data "permission" (Py.JStr "");
                  vectorModel := vm;
                  agentModel := am;
                  canWrite := Py.dict_get_or data "canWrite" (Py.JBool false);
                  isOwner := Py.dict_get_or data "isOwner" (Py.JBool false) |}
      end
  end.
End DatasetDetail.

Module BaseResponse.
Record t := Make {
  code : Z;
  message : string;
  statusText : string;
  data : Py.json
}.

(** the property [is_success] *)
Definition is_success (r : t) : bool :=
  (200 <=? code r)%Z && (code r <? 300)%Z.
End BaseResponse.

Module PushResults.
Record t := Make {
  insertLen : Py.json;
  overToken : Py.json;
  repeat : Py.json;
  error : Py.json
}.

Definition fields : gset string :=
  {[ "insertLen"; "overToken"; "repeat"; "error" ]}.

(** [PushResults( **v )]: [insertLen] is required, the three lists default
    to a new empty list, and a key that is no field name is refused; the
    constructor then raises [TypeError] ([None]). *)
Definition from_kwargs (v : Py.json) : option t :=
  match v with
  | Py.JObj d =>
      match d !! "insertLen" with
      | Some n =>
          if bool_decide (dom d ⊆ fields) then
            Some (Make n
                    (Py.dict_get_or d "overToken" (Py.JArr []))
                    (Py.dict_get_or d "repeat" (Py.JArr []))
                    (Py.dict_get_or d "error" (Py.JArr [])))
          else None
      | None => None
      end
  | _ => None
  end.
End PushResults.

Module SearchResultItem.
Record t := Make {
  id : Py.json;
  q : Py.json;
  a : Py.json;
  datasetId : Py.json;
  collectionId : Py.json;
  sourceName : Py.json;
  sourceId : Py.json;
  score : Py.json
}.

(** the constructor call inside [SearchTestResult.from_list], for one item.
    The default score [0.0] is the number [0] here. *)
Definition of_item (item : gmap string Py.json) : t :=
  {| id := Py.dict_get_or item "id" (Py.JStr "");
     q := Py.dict_get_or item "q" (Py.JStr "");
     a := Py.dict_get_or item "a" (Py.JStr "");
     datasetId := Py.dict_get_or item "datasetId" (Py.JStr "");
     collectionId := Py.dict_get_or item "collectionId" (Py.JStr "");
     sourceName := Py.dict_get_or item "sourceName" (Py.JStr "");
     sourceId := Py.dict_get item "sourceId";
     score := Py.dict_get_or item "score" (Py.JNum 0) |}.
End SearchResultItem.

Module SearchTestResult.
(** [SearchTestResult.from_list(data_list).list] for a list of dicts *)
Definition from_list (data_list : list (gmap string Py.json))
  : list SearchResultItem.t :=
  SearchResultItem.of_item <$> data_list.
End SearchTestResult.

(* ===================================================================== *)
(** * The world the client runs in                                         *)
(* ===================================================================== *)

Module World.
Import Py.

(** What leaves the process through [requests].  [PostFile] is the multipart
    upload: the [file] part with its name and bytes, and the [data] part,
    recorded as the mapping that [json.dumps] serialises. *)
Inductive event :=
| Request (method url : string) (headers : gmap string string)
          (body : option (gmap string json))
          (params : option (gmap string string))
| Get (url : string) (timeout : Z)
| PostFile (url : string) (headers : gmap string string)
           (filename content : string) (data : gmap string json).

(** A [requests.Response]: [json_body] is what [response.json()] gives, a
    value or the message of its decoding error. *)
Record response := Resp {
  status_code : Z;
  reason : string;
  resp_url : string;
  content : string;
  json_body : string + json
}.

Inductive http_outcome :=
| NoResponse (message : string)
| Response (r : response).

(** Everything the call does not decide itself. *)
Record Env := {
  (** the answer of the network to a request *)
  http : event → http_outcome;
  (** directory, prefix and random part of the next temporary file *)
  tmp_stem : string;
  (** the error, if any, of creating the temporary file *)
  mkstemp_error : option string;
  (** the error, if any, of writing to the temporary file *)
  write_error : option string;
  (** the error, if any, of opening a path for reading *)
  open_error : string → option string;
  (** the error, if any, of unlinking a path *)
  unlink_error : string → option string;
  (** the order in which the set [ALLOWED_EXTENSIONS] is iterated *)
  allowed_order : list string;
  (** [repr] of a list or dict *)
  repr : json → string;
  (** the message of the [ValueError], if any, with which [urlsplit]
      refuses a network location that has a bracketed host or is not ASCII
      (the host is no IPv6 or IPvFuture address, or a character normalises
      to a separator) *)
  netloc_error : string → option string
}.

(** The file system (path to bytes), the requests sent so far, and the local
    variable [temp_file_path] of [create_file_collection], which its
    [finally] block reads. *)
Record State := St {
  files : gmap string string;
  trace : list event;
  temp_file_path : option string
}.

(** A computation that may raise and may change the state. *)
Definition M (A : Type) : Type := State → result A * State.

Definition ret {A} (a : A) : M A := λ s, (Return a, s).
Definition raise {A} (e : exn) : M A := λ s, (Raise e, s).
Definition bind {A B} (m : M A) (k : A → M B) : M B :=
  λ s, match m s with
       | (Return a, s') => k a s'
       | (Raise e, s') => (Raise e, s')
       end.

(** [try: body  except Exception as e: handler(e)] *)
Definition try_except {A} (body : M A) (handler : exn → M A) : M A :=
  λ s, match body s with
       | (Return a, s') => (Return a, s')
       | (Raise e, s') => handler e s'
       end.

(** [try: body  finally: cleanup] *)
Definition try_finally {A} (body : M A) (cleanup : M unit) : M A :=
  λ s, match body s with
       | (r, s') =>
           match cleanup s' with
           | (Return _, s'') => (r, s'')
           | (Raise e, s'') => (Raise e, s'')
           end
       end.

Definition lift {A} (r : result A) : M A := λ s, (r, s).

Definition emit (ev : event) : M unit :=
  λ s, (Return (), St (files s) (trace s ++ [ev]) (temp_file_path s)).

Definition set_temp_file_path (p : option string) : M unit :=
  λ s, (Return (), St (files s) (trace s) p).

Definition get_temp_file_path : M (option string) :=
  λ s, (Return (temp_file_path s), s).

(** [str(v)] as an f-string formats it *)
Definition str (env : Env) (v : json) : string :=
  match v with
  | JNull => "None"
  | JBool true => "True"
  | JBool false => "False"
  | JNum z => pretty z
  | JStr s => s
  | _ => repr env v
  end.

(** ** [urllib.parse] *)

(** [urlparse(url).path]: the path, or the [ValueError] that [urlsplit]
    raises on the network location.  A location with one bracket only is
    refused at once; a bracketed host and a location that is not ASCII are
    refused when their check fails; any other location is accepted. *)
Definition urlparse_path (env : Env) (url : string) : result string :=
  let netloc := url_netloc url in
  if unmatched_bracket netloc then Raise (Exn ValueError "Invalid IPv6 URL")
  else if checked_netloc netloc then
    match netloc_error env netloc with
    | Some m => Raise (Exn ValueError m)
    | None => Return (url_path url)
    end
  else Return (url_path url).

(** ** [requests] *)

Definition send (env : Env) (ev : event) : M response :=
  bind (emit ev) (λ _,
    match http env ev with
    | NoResponse m => raise (Exn RequestException m)
    | Response r => ret r
    end).

Definition raise_for_status (r : response) : M unit :=
  if (400 <=? status_code r)%Z && (status_code r <? 500)%Z then
    raise (Exn HTTPError (pretty (status_code r) +:+ " Client Error: "
                          +:+ reason r +:+ " for url: " +:+ resp_url r))
  else if (500 <=? status_code r)%Z && (status_code r <? 600)%Z then
    raise (Exn HTTPError (pretty (status_code r) +:+ " Server Error: "
                          +:+ reason r +:+ " for url: " +:+ resp_url r))
  else ret ().

Definition response_json (r : response) : M json :=
  match json_body r with
  | inl m => raise (Exn JSONDecodeError m)
  | inr v => ret v
  end.

(** ** [os], [tempfile] and [open] *)

Definition os_path_exists (p : string) : M bool :=
  λ s, (Return (bool_decide (is_Some (files s !! p))), s).

(** [tempfile.NamedTemporaryFile(delete=False, suffix=suffix)]: an empty
    file appears under a new name that ends in [suffix]. *)
Definition NamedTemporaryFile (env : Env) (suffix : string) : M string :=
  match mkstemp_error env with
  | Some m => raise (Exn OSError m)
  | None =>
      let p := tmp_stem env +:+ suffix in
      λ s, (Return p, St (<[p := ""]> (files s)) (trace s) (temp_file_path s))
  end.

(** [tmp_file.write(bytes)] *)
Definition file_write (env : Env) (p bytes : string) : M unit :=
  match write_error env with
  | Some m => raise (Exn OSError m)
  | None =>
      λ s, (Return (), St (<[p := bytes]> (files s)) (trace s) (temp_file_path s))
  end.

(** [open(p, 'rb')] and the bytes read from it *)
Definition open_rb (env : Env) (p : string) : M string :=
  match open_error env p with
  | Some m => raise (Exn OSError m)
  | None =>
      λ s, match files s !! p with
           | Some bytes => (Return bytes, s)
           | None =>
               (Raise (Exn FileNotFoundError
                  ("[Errno 2] No such file or directory: '" +:+ p +:+ "'")), s)
           end
  end.

(** [os.unlink(p)] *)
Definition os_unlink (env : Env) (p : string) : M unit :=
  match unlink_error env p with
  | Some m => raise (Exn OSError m)
  | None => λ s, (Return (), St (delete p (files s)) (trace s) (temp_file_path s))
  end.

End World.

(* ===================================================================== *)
(** * The client                                                           *)
(* ===================================================================== *)

Module TextArgs.
(** the parameters of [create_text_collection] *)
Record t := Make {
  text : string;
  dataset_id : string;
  name : string;
  training_type : string;
  parent_id : option string;
  index_prefix_title : option bool;
  custom_pdf_parse : bool;
  auto_indexes : option bool;
  image_index : option bool;
  chunk_setting_mode : string;
  chunk_split_mode : string;
  chunk_size : Z;
  index_size : Z;
  chunk_splitter : string;
  qa_prompt : string;
  tags : option (list string);
  create_time : option string;
  metadata : option (gmap string Py.json)
}.

(** a call that passes the three required arguments only *)
Definition defaults (text dataset_id name : string) : t :=
  Make text dataset_id name "chunk" None None false None None
       "auto" "size" 1500 512 "" "" None None None.
End TextArgs.

Module FileArgs.
(** the parameters of [create_file_collection] *)
Record t := Make {
  dataset_id : string;
  file_path : string;
  training_type : string;
  name : option string;
  parent_id : option string;
  index_prefix_title : option bool;
  custom_pdf_parse : bool;
  auto_indexes : option bool;
  image_index : option bool;
  chunk_setting_mode : string;
  chunk_split_mode : string;
  chunk_size : Z;
  index_size : Z;
  chunk_splitter : string;
  qa_prompt : string;
  tags : option (list string);
  create_time : option string;
  metadata : option (gmap string Py.json)
}.

(** a call that passes the two required arguments only *)
Definition defaults (dataset_id file_path : string) : t :=
  Make dataset_id file_path "chunk" None None (Some true) true None
       (Some true) "auto" "size" 1500 512 "" "" None None None.

Definition with_name (a : t) (n : option string) : t :=
  Make (dataset_id a) (file_path a) (training_type a) n (parent_id a)
       (index_prefix_title a) (custom_pdf_parse a) (auto_indexes a)
       (image_index a) (chunk_setting_mode a) (chunk_split_mode a)
       (chunk_size a) (index_size a) (chunk_splitter a) (qa_prompt a)
       (tags a) (create_time a) (metadata a).
End FileArgs.

Module DatasetArgs.
(** the parameters of [create_dataset] *)
Record t := Make {
  name : string;
  intro : string;
  type : string;
  avatar : string;
  vector_model : string;
  agent_model : string;
  vlm_model : string;
  parent_id : option string
}.

(** a call that passes the name only *)
Definition defaults (name : string) : t :=
  Make name "" "dataset" "/icon/logo.svg" "qwen3-embedding-8b"
       "qwen3-next-80b-a3b-instruct" "qwen3-vl-30b-a3b-instruct" None.
End DatasetArgs.

Module EmptyArgs.
(** the parameters of [create_empty_collection] *)
Record t := Make {
  dataset_id : string;
  name : string;
  type : option string;
  parent_id : option string;
  tags : option (list string);
  metadata : option (gmap string Py.json)
}.

Definition defaults (dataset_id name : string) : t :=
  Make dataset_id name (Some "folder") None None None.
End EmptyArgs.

Module LinkArgs.
(** the parameters of [create_link_collection] *)
Record t := Make {
  dataset_id : string;
  link : string;
  training_type : string;
  parent_id : option string;
  index_prefix_title : option bool;
  custom_pdf_parse : bool;
  auto_indexes : option bool;
  image_index : option bool;
  chunk_setting_mode : string;
  chunk_split_mode : string;
  chunk_size : Z;
  index_size : Z;
  chunk_splitter : string;
  qa_prompt : string;
  selector : string;
  tags : option (list string);
  create_time : option string;
  metadata : option (gmap string Py.json)
}.

Definition defaults (dataset_id link : string) : t :=
  Make dataset_id link "chunk" None (Some true) true (Some true) (Some true)
       "auto" "size" 1500 512 "" "" ".body" None None None.
End LinkArgs.

Module SearchArgs.
(** the parameters of [search_test]; [similarity] is the number passed *)
Record t := Make {
  dataset_id : string;
  text : string;
  limit : Z;
  similarity : Py.json;
  using_re_rank : bool
}.

Definition defaults (dataset_id text : string) : t :=
  Make dataset_id text 10 (Py.JNum 0) false.
End SearchArgs.

Module Client.
Import Py World.

#[export] Instance M_ret : MRet M := @ret.
#[export] Instance M_bind : MBind M := λ A B k m, bind m k.

Record FastGPTKnowledgeBase := Self {
  base_url : string;
  headers : gmap string string
}.

(** [FastGPTKnowledgeBase(base_url, api_key)] *)
Definition __init__ (base_url api_key : string) : FastGPTKnowledgeBase :=
  {| base_url := rstrip "/" base_url;
     headers := {[ "Authorization" := "Bearer " +:+ api_key;
                   "Content-Type" := "application/json" ]} |}.

(** [_request]: the service-level check on [code], and the wrapping of every
    exception of the body. *)
Definition _request (env : Env) (self : FastGPTKnowledgeBase)
    (method endpoint : string)
    (json : option (gmap string json))
    (params : option (gmap string string)) : M Py.json :=
  let url := base_url self +:+ endpoint in
  try_except
    (response ← send env (Request method url (headers self) json params);
     raise_for_status response;;
     res_json ← response_json response;
     match res_json with
     | JObj d =>
         if truthy (dict_get d "code")
            && negb (in_ints (dict_get d "code") [200; 201]%Z)
         then raise (Exn Exception ("FastGPT API Error: "
                                    +:+ str env (dict_get d "message")))
         else mret res_json
     | _ =>
         raise (Exn AttributeError
                  ("'" +:+ type_name res_json
                   +:+ "' object has no attribute 'get'"))
     end)
    (λ e, raise (Exn Exception ("Request Failed: " +:+ msg e))).

Definition _post env self endpoint (json_data : option (gmap string json))
  : M Py.json :=
  _request env self "POST" endpoint json_data None.

Definition _get env self endpoint (params : option (gmap string string))
  : M Py.json :=
  _request env self "GET" endpoint None params.

Definition opt_str (o : option string) : json :=
  match o with Some s => JStr s | None => JNull end.

(** [metadata or {}] *)
Definition metadata_or_empty (o : option (gmap string json)) : json :=
  match o with
  | Some m => if Nat.eqb (size m) 0 then JObj ∅ else JObj m
  | None => JObj ∅
  end.

Definition str_list (l : list string) : json := JArr (JStr <$> l).

(** [if c: d[k] = v] *)
Definition setitem_if (c : bool) (k : string) (v : json)
    (d : gmap string json) : gmap string json :=
  if c then <[k := v]> d else d.

(** [if o is not None: d[k] = o] *)
Definition setitem_some (o : option bool) (k : string)
    (d : gmap string json) : gmap string json :=
  match o with
  | Some b => <[k := JBool b]> d
  | None => d
  end.

(** the payload [create_text_collection] assembles before it posts it *)
Definition create_text_collection_payload (a : TextArgs.t)
  : gmap string json :=
  let payload : gmap string json :=
    {[ "text" := JStr (TextArgs.text a);
       "datasetId" := JStr (TextArgs.dataset_id a);
       "name" := JStr (TextArgs.name a);
       "parentId" := opt_str (TextArgs.parent_id a);
       "trainingType" := JStr (TextArgs.training_type a);
       "customPdfParse" := JBool (TextArgs.custom_pdf_parse a);
       "chunkSettingMode" := JStr (TextArgs.chunk_setting_mode a);
       "metadata" := metadata_or_empty (TextArgs.metadata a) ]} in
  let payload :=
    if String.eqb (TextArgs.chunk_setting_mode a) "custom" then
      let payload :=
        <["chunkSplitMode" := JStr (TextArgs.chunk_split_mode a)]> payload in
      let payload := <["chunkSize" := JNum (TextArgs.chunk_size a)]> payload in
      let payload := <["indexSize" := JNum (TextArgs.index_size a)]> payload in
      setitem_if (negb (String.eqb (TextArgs.chunk_splitter a) ""))
        "chunkSplitter" (JStr (TextArgs.chunk_splitter a)) payload
    else payload in
  let payload :=
    setitem_if (String.eqb (TextArgs.training_type a) "qa"
                && negb (String.eqb (TextArgs.qa_prompt a) ""))
      "qaPrompt" (JStr (TextArgs.qa_prompt a)) payload in
  let payload :=
    setitem_some (TextArgs.index_prefix_title a) "indexPrefixTitle" payload in
  let payload := setitem_some (TextArgs.auto_indexes a) "autoIndexes" payload in
  let payload := setitem_some (TextArgs.image_index a) "imageIndex" payload in
  let payload :=
    setitem_if (truthy_list (TextArgs.tags a))
      "tags" (str_list (default [] (TextArgs.tags a))) payload in
  setitem_if (truthy_str (TextArgs.create_time a))
    "createTime" (opt_str (TextArgs.create_time a)) payload.

(** [create_text_collection]: post the payload, return [res['data']] *)
Definition create_text_collection (env : Env) (self : FastGPTKnowledgeBase)
    (a : TextArgs.t) : M Py.json :=
  res ← _post env self "/core/dataset/collection/create/text"
              (Some (create_text_collection_payload a));
  lift (getitem res "data").

(** ** [create_file_collection] *)

Definition ALLOWED_EXTENSIONS : gset string :=
  {[ "pdf"; "xlsx"; "pptx"; "docx"; "md"; "txt" ]}.

Definition is_url (file_path : string) : bool :=
  startswith file_path "http://" || startswith file_path "https://".

(** [name.split('.')[-1].lower() if '.' in name else ''] *)
Definition file_ext_of (filename : string) : string :=
  if in_str "." filename then lower (last_item (split "." filename)) else "".

(** [os.path.basename(unquote(path))] for the path of a parsed URL *)
Definition filename_of_path (path : string) : string :=
  basename (unquote path).

(** [os.path.basename(unquote(urlparse(file_path).path))], for a URL that
    [urlparse] accepts *)
Definition url_filename_of (file_path : string) : string :=
  filename_of_path (url_path file_path).

Definition allowed (file_ext : string) : bool :=
  bool_decide (file_ext ∈ ALLOWED_EXTENSIONS).

(** the message of the [ValueError] *)
Definition unsupported_msg (env : Env) (file_ext : string) : string :=
  "不支持的文件格式: " +:+ file_ext +:+ ". "
  +:+ "仅允许以下格式: " +:+ join ", " (allowed_order env).

(** the message of the [FileNotFoundError] *)
Definition not_found_msg (file_path : string) : string :=
  "文件不存在: " +:+ file_path.

(** Lines 393-432: from the source reference to the path of the file to
    upload and its display name. *)
Definition resolve_source (env : Env) (file_path : string)
  : M (string * string) :=
  if is_url file_path then
    path ← lift (urlparse_path env file_path);
    let url_filename := filename_of_path path in
    let file_ext := file_ext_of url_filename in
    if negb (allowed file_ext) then
      raise (Exn ValueError (unsupported_msg env file_ext))
    else
      response ← send env (Get file_path 30);
      raise_for_status response;;
      tmp_name ← NamedTemporaryFile env ("." +:+ file_ext);
      file_write env tmp_name (content response);;
      set_temp_file_path (Some tmp_name);;
      mret (tmp_name, url_filename)
  else
    found ← os_path_exists file_path;
    if negb found then
      raise (Exn FileNotFoundError (not_found_msg file_path))
    else
      let filename := basename file_path in
      let file_ext := file_ext_of filename in
      if negb (allowed file_ext) then
        raise (Exn ValueError (unsupported_msg env file_ext))
      else mret (file_path, filename).

(** Lines 438-466: the metadata sent next to the file. *)
Definition form_metadata_of (a : FileArgs.t) : gmap string json :=
  let form_metadata : gmap string json :=
    {[ "datasetId" := JStr (FileArgs.dataset_id a);
       "parentId" := opt_str (FileArgs.parent_id a);
       "trainingType" := JStr (FileArgs.training_type a);
       "customPdfParse" := JBool (FileArgs.custom_pdf_parse a);
       "chunkSettingMode" := JStr (FileArgs.chunk_setting_mode a);
       "metadata" := metadata_or_empty (FileArgs.metadata a) ]} in
  let form_metadata :=
    if String.eqb (FileArgs.chunk_setting_mode a) "custom" then
      let form_metadata :=
        <["chunkSplitMode" := JStr (FileArgs.chunk_split_mode a)]>
          form_metadata in
      let form_metadata :=
        <["chunkSize" := JNum (FileArgs.chunk_size a)]> form_metadata in
      let form_metadata :=
        <["indexSize" := JNum (FileArgs.index_size a)]> form_metadata in
      setitem_if (negb (String.eqb (FileArgs.chunk_splitter a) ""))
        "chunkSplitter" (JStr (FileArgs.chunk_splitter a)) form_metadata
    else form_metadata in
  let form_metadata :=
    setitem_if (String.eqb (FileArgs.training_type a) "qa"
                && negb (String.eqb (FileArgs.qa_prompt a) ""))
      "qaPrompt" (JStr (FileArgs.qa_prompt a)) form_metadata in
  let form_metadata :=
    setitem_some (FileArgs.index_prefix_title a) "indexPrefixTitle"
      form_metadata in
  let form_metadata :=
    setitem_some (FileArgs.auto_indexes a) "autoIndexes" form_metadata in
  let form_metadata :=
    setitem_some (FileArgs.image_index a) "imageIndex" form_metadata in
  let form_metadata :=
    setitem_if (truthy_list (FileArgs.tags a))
      "tags" (str_list (default [] (FileArgs.tags a))) form_metadata in
  setitem_if (truthy_str (FileArgs.create_time a))
    "createTime" (opt_str (FileArgs.create_time a)) form_metadata.

(** [name if name else filename] *)
Definition upload_name (name : option string) (filename : string) : string :=
  if truthy_str name then default "" name else filename.

(** Lines 482-485: [res_json['data']['collectionId']], and [res_json['data']]
    when that raises. *)
Definition collection_id_of (res_json : json) : M json :=
  try_except
    (data ← lift (getitem res_json "data"); lift (getitem data "collectionId"))
    (λ _, lift (getitem res_json "data")).

(** Lines 469-485: the multipart upload. *)
Definition upload (env : Env) (self : FastGPTKnowledgeBase)
    (actual_file_path encoded_filename : string)
    (form_metadata : gmap string json) : M json :=
  let url := base_url self +:+ "/core/dataset/collection/create/localFile" in
  f ← open_rb env actual_file_path;
  let headers_copy := delete "Content-Type" (headers self) in
  response ← send env (PostFile url headers_copy encoded_filename f
                                form_metadata);
  raise_for_status response;;
  res_json ← response_json response;
  collection_id_of res_json.

(** Lines 393-485: the body of the [try] statement. *)
Definition create_file_collection_body (env : Env)
    (self : FastGPTKnowledgeBase) (a : FileArgs.t) : M json :=
  '(actual_file_path, filename) ← resolve_source env (FileArgs.file_path a);
  let encoded_filename := quote (upload_name (FileArgs.name a) filename) "" in
  upload env self actual_file_path encoded_filename (form_metadata_of a).

(** Lines 488-494: the [finally] block. *)
Definition cleanup (env : Env) : M unit :=
  temp_file_path ← get_temp_file_path;
  if truthy_str temp_file_path then
    let p := default "" temp_file_path in
    os_path_exists p ≫= λ found : bool,
    if found then try_except (os_unlink env p) (λ _, ret ()) else ret ()
  else ret ().

Definition create_file_collection (env : Env) (self : FastGPTKnowledgeBase)
    (a : FileArgs.t) : M json :=
  set_temp_file_path None;;
  try_finally
    (try_except
       (create_file_collection_body env self a)
       (λ e, raise (Exn Exception ("File Upload Failed: " +:+ msg e))))
    (cleanup env).

(** the state in which a call starts: the files on disk, nothing sent *)
Definition start (fs : gmap string string) : State := St fs [] None.

(** ** The other operations *)

Definition _delete env self endpoint (params : option (gmap string string))
  : M Py.json :=
  _request env self "DELETE" endpoint None params.

(** the message of the [TypeError] of a dataclass constructor called with
    missing or unknown keywords.  CPython names the offending argument; the
    text is cut short here. *)
Definition constructor_error (cls : string) : exn :=
  Exn TypeError (cls +:+ ".__init__() got missing or unexpected arguments").

(** the [AttributeError] of [v.get] for a [v] that is no dict *)
Definition no_get_error (v : json) : exn :=
  Exn AttributeError ("'" +:+ type_name v +:+ "' object has no attribute 'get'").

Definition create_dataset_payload (a : DatasetArgs.t) : gmap string json :=
  {[ "parentId" := opt_str (DatasetArgs.parent_id a);
     "type" := JStr (DatasetArgs.type a);
     "name" := JStr (DatasetArgs.name a);
     "intro" := JStr (DatasetArgs.intro a);
     "avatar" := JStr (DatasetArgs.avatar a);
     "vectorModel" := JStr (DatasetArgs.vector_model a);
     "agentModel" := JStr (DatasetArgs.agent_model a);
     "vlmModel" := JStr (DatasetArgs.vlm_model a) ]}.

Definition create_dataset (env : Env) (self : FastGPTKnowledgeBase)
    (a : DatasetArgs.t) : M Py.json :=
  res ← _post env self "/core/dataset/create"
              (Some (create_dataset_payload a));
  lift (getitem res "data").

(** [DatasetDetail.from_dict(v)] for whatever [res['data']] is: the first
    [data.get] raises for a value that is no dict. *)
Definition from_dict_any (v : json) : M DatasetDetail.t :=
  match v with
  | JObj data =>
      match DatasetDetail.from_dict data with
      | Some r => mret r
      | None => raise (constructor_error "ModelConfig")
      end
  | _ => raise (no_get_error v)
  end.

Definition get_dataset_detail (env : Env) (self : FastGPTKnowledgeBase)
    (dataset_id : string) : M DatasetDetail.t :=
  res ← _get env self "/core/dataset/detail" (Some {[ "id" := dataset_id ]});
  data ← lift (getitem res "data");
  from_dict_any data.

Definition delete_dataset (env : Env) (self : FastGPTKnowledgeBase)
    (dataset_id : string) : M bool :=
  _delete env self "/core/dataset/delete" (Some {[ "id" := dataset_id ]});;
  mret true.

Definition create_empty_collection_payload (a : EmptyArgs.t)
  : gmap string json :=
  let payload : gmap string json :=
    {[ "datasetId" := JStr (EmptyArgs.dataset_id a);
       "name" := JStr (EmptyArgs.name a);
       "parentId" := opt_str (EmptyArgs.parent_id a);
       "type" := opt_str (EmptyArgs.type a);
       "metadata" := metadata_or_empty (EmptyArgs.metadata a) ]} in
  setitem_if (truthy_list (EmptyArgs.tags a))
    "tags" (str_list (default [] (EmptyArgs.tags a))) payload.

Definition create_empty_collection (env : Env) (self : FastGPTKnowledgeBase)
    (a : EmptyArgs.t) : M Py.json :=
  res ← _post env self "/core/dataset/collection/create"
              (Some (create_empty_collection_payload a));
  lift (getitem res "data").

(** [metadata or {"webPageSelector": selector}] *)
Definition metadata_or_selector (o : option (gmap string json))
    (selector : string) : json :=
  match o with
  | Some m =>
      if Nat.eqb (size m) 0 then JObj {[ "webPageSelector" := JStr selector ]}
      else JObj m
  | None => JObj {[ "webPageSelector" := JStr selector ]}
  end.

Definition create_link_collection_payload (a : LinkArgs.t)
  : gmap string json :=
  let payload : gmap string json :=
    {[ "datasetId" := JStr (LinkArgs.dataset_id a);
       "link" := JStr (LinkArgs.link a);
       "parentId" := opt_str (LinkArgs.parent_id a);
       "trainingType" := JStr (LinkArgs.training_type a);
       "customPdfParse" := JBool (LinkArgs.custom_pdf_parse a);
       "chunkSettingMode" := JStr (LinkArgs.chunk_setting_mode a);
       "metadata" := metadata_or_selector (LinkArgs.metadata a)
                                          (LinkArgs.selector a) ]} in
  let payload :=
    if String.eqb (LinkArgs.chunk_setting_mode a) "custom" then
      let payload :=
        <["chunkSplitMode" := JStr (LinkArgs.chunk_split_mode a)]> payload in
      let payload := <["chunkSize" := JNum (LinkArgs.chunk_size a)]> payload in
      let payload := <["indexSize" := JNum (LinkArgs.index_size a)]> payload in
      setitem_if (negb (String.eqb (LinkArgs.chunk_splitter a) ""))
        "chunkSplitter" (JStr (LinkArgs.chunk_splitter a)) payload
    else payload in
  let payload :=
    setitem_if (String.eqb (LinkArgs.training_type a) "qa"
                && negb (String.eqb (LinkArgs.qa_prompt a) ""))
      "qaPrompt" (JStr (LinkArgs.qa_prompt a)) payload in
  let payload :=
    setitem_some (LinkArgs.index_prefix_title a) "indexPrefixTitle" payload in
  let payload := setitem_some (LinkArgs.auto_indexes a) "autoIndexes" payload in
  let payload := setitem_some (LinkArgs.image_index a) "imageIndex" payload in
  let payload :=
    setitem_if (truthy_list (LinkArgs.tags a))
      "tags" (str_list (default [] (LinkArgs.tags a))) payload in
  setitem_if (truthy_str (LinkArgs.create_time a))
    "createTime" (opt_str (LinkArgs.create_time a)) payload.

Definition create_link_collection (env : Env) (self : FastGPTKnowledgeBase)
    (a : LinkArgs.t) : M Py.json :=
  res ← _post env self "/core/dataset/collection/create/link"
              (Some (create_link_collection_payload a));
  lift (getitem res "data").

(** a [{"q": ..., "a": ...}] record of [push_data] *)
Definition str_dict (d : gmap string string) : json := JObj (JStr <$> d).

Definition push_data_payload (collection_id : string)
    (data : list (gmap string string)) (training_type : string)
  : gmap string json :=
  {[ "collectionId" := JStr collection_id;
     "trainingType" := JStr training_type;
     "data" := JArr (str_dict <$> data) ]}.

Definition push_data (env : Env) (self : FastGPTKnowledgeBase)
    (collection_id : string) (data : list (gmap string string))
    (training_type : string) : M PushResults.t :=
  res ← _post env self "/core/dataset/data/pushData"
              (Some (push_data_payload collection_id data training_type));
  v ← lift (getitem res "data");
  match PushResults.from_kwargs v with
  | Some r => mret r
  | None => raise (constructor_error "PushResults")
  end.

Definition search_test_payload (a : SearchArgs.t) : gmap string json :=
  {[ "datasetId" := JStr (SearchArgs.dataset_id a);
     "text" := JStr (SearchArgs.text a);
     "limit" := JNum (SearchArgs.limit a);
     "similarity" := SearchArgs.similarity a;
     "usingReRank" := JBool (SearchArgs.using_re_rank a);
     "searchMode" := JStr "embedding" ]}.

(** the list comprehension of [from_list] over a JSON array: the first item
    that is no dict stops it with the [AttributeError] of [item.get] *)
Fixpoint items_of (l : list json) : result (list SearchResultItem.t) :=
  match l with
  | [] => Return []
  | JObj item :: rest =>
      match items_of rest with
      | Return its => Return (SearchResultItem.of_item item :: its)
      | Raise e => Raise e
      end
  | v :: _ => Raise (no_get_error v)
  end.

(** [SearchTestResult.from_list(v).list] for whatever [v] is.  Iterating a
    string or a dict yields strings, on which [get] fails; a value of
    another type cannot be iterated. *)
Definition from_list_any (v : json) : result (list SearchResultItem.t) :=
  match v with
  | JArr l => items_of l
  | JStr s => if String.eqb s "" then Return [] else Raise (no_get_error v)
  | JObj m =>
      if Nat.eqb (size m) 0 then Return [] else Raise (no_get_error (JStr ""))
  | _ =>
      Raise (Exn TypeError ("'" +:+ type_name v +:+ "' object is not iterable"))
  end.

Definition search_test (env : Env) (self : FastGPTKnowledgeBase)
    (a : SearchArgs.t) : M (list SearchResultItem.t) :=
  res ← _post env self "/core/dataset/searchTest"
              (Some (search_test_payload a));
  data ← lift (getitem res "data");
  data_list ← lift (getitem data "list");
  lift (from_list_any data_list).

End Client.

(* ===================================================================== *)
(** * Vocabulary of the properties, and the inputs of the examples         *)
(* ===================================================================== *)

Module Examples.
Import Py World Client.

(** the field names of [ModelConfig] *)
Definition model_fields : gset string :=
  {[ "model"; "name"; "charsPointsPrice"; "defaultToken" ]}.

(** a complete model object: exactly the four fields *)
Definition complete_model (m : gmap string json) : Prop :=
  dom m = model_fields.

(** the dataset-detail response of the round-trip example *)
Definition detail_response (agentModel : gmap string json)
  : gmap string json :=
  {[ "_id" := JStr "d1";
     "type" := JStr "dataset";
     "name" := JStr "KB";
     "vectorModel" := JObj {[ "model" := JStr "m"; "name" := JStr "n";
                              "charsPointsPrice" := JNum 0;
                              "defaultToken" := JNum 100 ]};
     "agentModel" := JObj agentModel;
     "canWrite" := JBool true;
     "isOwner" := JBool false ]}.

Definition agent_model : gmap string json :=
  {[ "model" := JStr "gpt"; "name" := JStr "GPT";
     "charsPointsPrice" := JNum 1; "defaultToken" := JNum 4000 ]}.

(** an endpoint that answers every request with [code 200] and an id *)
Definition env_ok : Env :=
  {| http := λ ev,
       match ev with
       | Get u _ => Response (Resp 200 "OK" u "PDFBYTES" (inl "no JSON"))
       | PostFile u _ _ _ _ =>
           Response (Resp 200 "OK" u ""
             (inr (JObj {[ "code" := JNum 200;
                           "data" := JObj {[ "collectionId" := JStr "c1" ]} ]})))
       | Request _ u _ _ _ =>
           Response (Resp 200 "OK" u ""
             (inr (JObj {[ "code" := JNum 200; "data" := JStr "c1" ]})))
       end;
     tmp_stem := "/tmp/tmpab12cd";
     mkstemp_error := None;
     write_error := None;
     open_error := λ _, None;
     unlink_error := λ _, None;
     allowed_order := ["pdf"; "xlsx"; "pptx"; "docx"; "md"; "txt"];
     repr := λ _, "";
     netloc_error := λ _, None |}.

Definition kb : FastGPTKnowledgeBase :=
  __init__ "http://localhost:3000/api/" "key".

(** a network that answers every request with [r] *)
Definition env_answering (r : response) : Env :=
  {| http := λ _, Response r;
     tmp_stem := "/tmp/tmpab12cd";
     mkstemp_error := None;
     write_error := None;
     open_error := λ _, None;
     unlink_error := λ _, None;
     allowed_order := ["pdf"; "xlsx"; "pptx"; "docx"; "md"; "txt"];
     repr := λ _, "";
     netloc_error := λ _, None |}.

(** the body [{"code": c, "message": "boom"}] under transport status [st] *)
Definition boom_body (c : Z) : gmap string json :=
  {[ "code" := JNum c; "message" := JStr "boom" ]}.
Definition boom_response (st : Z) (reason : string) (c : Z) : response :=
  Resp st reason "http://localhost:3000/api/x" "" (inr (JObj (boom_body c))).

Definition text_endpoint : string := "/core/dataset/collection/create/text".

(** the request [create_text_collection] sends *)
Definition text_request (self : FastGPTKnowledgeBase) (a : TextArgs.t)
  : event :=
  Request "POST" (base_url self +:+ text_endpoint) (headers self)
          (Some (create_text_collection_payload a)) None.

(** [chunk_setting_mode="custom"] with the other chunk parameters left at
    their defaults, among them [chunk_splitter=""] *)
Definition text_custom_default : TextArgs.t :=
  TextArgs.Make "hello" "ds" "doc" "chunk" None None false None None
                "custom" "size" 1500 512 "" "" None None None.

(** [chunk_setting_mode="custom"] with all four chunk parameters passed *)
Definition text_custom_full : TextArgs.t :=
  TextArgs.Make "hello" "ds" "doc" "chunk" None None false None None
                "custom" "char" 1000 256 "###" "" None None None.

(** [chunk_setting_mode="auto"] with chunk parameters passed all the same *)
Definition text_auto_full : TextArgs.t :=
  TextArgs.Make "hello" "ds" "doc" "chunk" None None false None None
                "auto" "char" 1000 256 "###" "" None None None.

(** [training_type="qa"] with a prompt *)
Definition text_qa : TextArgs.t :=
  TextArgs.Make "hello" "ds" "doc" "qa" None None false None None
                "auto" "size" 1500 512 "" "ask" None None None.

(** the display name derived from the source reference *)
Definition display_name (file_path : string) : string :=
  if is_url file_path then url_filename_of file_path else basename file_path.

(** the name of the [file] part of an upload *)
Definition upload_filename (ev : event) : option string :=
  match ev with
  | PostFile _ _ filename _ _ => Some filename
  | _ => None
  end.

(** the nested [collectionId] when [data] is an object that has one, and
    [data] itself otherwise *)
Definition nested_or_data (data : json) : json :=
  match data with
  | JObj m => default data (m !! "collectionId")
  | _ => data
  end.

(** [env] with another outcome of unlinking *)
Definition with_unlink (env : Env) (u : string → option string) : Env :=
  {| http := http env;
     tmp_stem := tmp_stem env;
     mkstemp_error := mkstemp_error env;
     write_error := write_error env;
     open_error := open_error env;
     unlink_error := u;
     allowed_order := allowed_order env;
     repr := repr env;
     netloc_error := netloc_error env |}.

(** [urlparse] accepts the URL: it returns a result, with some path *)
Definition parses (env : Env) (file_path : string) : Prop :=
  ∃ path, urlparse_path env file_path = Return path.

(** a URL whose network location opens a bracket and does not close it *)
Definition bracket_url_call : FileArgs.t :=
  FileArgs.defaults "ds" "https://[host/doc.jpg".

(** the temporary file of a call on a URL whose extension is [file_ext] *)
Definition temp_path (env : Env) (file_ext : string) : string :=
  tmp_stem env +:+ "." +:+ file_ext.

(** the calls of the examples *)
Definition jpg_url_call : FileArgs.t :=
  FileArgs.defaults "ds" "https://host/doc.jpg".
Definition pdf_url_call : FileArgs.t :=
  FileArgs.defaults "ds" "https://host/doc.pdf".
Definition missing_jpg_call : FileArgs.t :=
  FileArgs.defaults "ds" "./notes.jpg".
Definition missing_pdf_call : FileArgs.t :=
  FileArgs.defaults "ds" "./missing.pdf".

(** a network on which the download and the upload succeed, and a file
    system on which unlinking fails *)
Definition env_unlink_fails : Env :=
  with_unlink env_ok (λ _, Some "[Errno 13] Permission denied").

(** a disk on which the downloaded bytes cannot be written *)
Definition env_write_fails : Env :=
  {| http := http env_ok;
     tmp_stem := tmp_stem env_ok;
     mkstemp_error := None;
     write_error := Some "[Errno 28] No space left on device";
     open_error := λ _, None;
     unlink_error := λ _, None;
     allowed_order := allowed_order env_ok;
     repr := repr env_ok;
     netloc_error := netloc_error env_ok |}.

(** what the caller receives for the outcome [r] of the [try] body *)
Definition wrapped (r : result json) : result json :=
  match r with
  | Return v => Return v
  | Raise e => Raise (Exn Exception ("File Upload Failed: " +:+ msg e))
  end.

(** a byte that [quote] can produce: always safe, or the escape sign *)
Definition quoted_char (c : ascii) : bool := always_safe c || Ascii.eqb c "%".

(** a local file whose name has a space in it *)
Definition local_call : FileArgs.t := FileArgs.defaults "ds" "./a b.pdf".
Definition local_fs : gmap string string := {[ "./a b.pdf" := "BYTES" ]}.
Definition local_upload : event :=
  PostFile (base_url kb +:+ "/core/dataset/collection/create/localFile")
           (delete "Content-Type" (headers kb)) "a%20b.pdf" "BYTES"
           (form_metadata_of local_call).

(** the upload of the file downloaded from ["https://host/doc.pdf"] *)
Definition pdf_upload : event :=
  PostFile (base_url kb +:+ "/core/dataset/collection/create/localFile")
           (delete "Content-Type" (headers kb)) "doc.pdf" "PDFBYTES"
           (form_metadata_of pdf_url_call).

(** the answer of [env_ok] to an upload *)
Definition nested_answer : gmap string json :=
  {[ "code" := JNum 200;
     "data" := JObj {[ "collectionId" := JStr "c1" ]} ]}.

(** an upload answered with [data] as the id itself *)
Definition env_flat : Env :=
  env_answering (Resp 200 "OK" "" "" (inr (JObj {[ "data" := JStr "c2" ]}))).

End Examples.

(* ===================================================================== *)
(** * Vocabulary and inputs for the remaining operations                   *)
(* ===================================================================== *)

Module Cases.
Import Py World Client Examples.

(** the request that [_request] sends *)
Definition request_of (self : FastGPTKnowledgeBase) (method endpoint : string)
    (json : option (gmap string json)) (params : option (gmap string string))
  : event :=
  Request method (base_url self +:+ endpoint) (headers self) json params.

(** the state after one more request, with the files left alone *)
Definition sent (s : State) (ev : event) : State :=
  St (files s) (trace s ++ [ev]) (temp_file_path s).

(** the text of the [HTTPError] of [raise_for_status] *)
Definition http_error_text (r : response) : string :=
  pretty (status_code r)
  +:+ (if (status_code r <? 500)%Z then " Client Error: "
       else " Server Error: ")
  +:+ reason r +:+ " for url: " +:+ resp_url r.

(** a body that the service-level check lets through: no [code], a falsy
    [code], or [code] 200 or 201 *)
Definition code_accepted (d : gmap string json) : Prop :=
  d !! "code" = None
  ∨ (∃ c, d !! "code" = Some c ∧ truthy c = false)
  ∨ (∃ c, d !! "code" = Some c ∧ in_ints c [200; 201]%Z = true).

(** an answer with transport status 200 and the JSON object [body] *)
Definition ok_response (body : gmap string json) : response :=
  Resp 200 "OK" "" "" (inr (JObj body)).

(** an answer with the given transport status and the JSON object [body] *)
Definition status_response (st : Z) (reason : string)
    (body : gmap string json) : response :=
  Resp st reason "http://localhost:3000/api/x" "" (inr (JObj body)).

(** a 404 answer whose body claims success *)
Definition not_found_answer : response :=
  status_response 404 "Not Found" {[ "code" := JNum 200; "data" := JStr "d" ]}.

(** what an operation that returns [res['data']] makes of an accepted
    body *)
Definition data_or_key_error (d : gmap string json) : result json :=
  match d !! "data" with
  | Some v => Return v
  | None => Raise (Exn KeyError "'data'")
  end.

(** the POST of a payload to an endpoint *)
Definition post_of (self : FastGPTKnowledgeBase) (endpoint : string)
    (payload : gmap string json) : event :=
  request_of self "POST" endpoint (Some payload) None.

(** the answer is an accepted JSON object [d] *)
Definition answers (env : Env) (ev : event) (d : gmap string json) : Prop :=
  ∃ r, http env ev = Response r
       ∧ ¬ (400 ≤ status_code r < 600)%Z
       ∧ json_body r = inr (JObj d)
       ∧ code_accepted d.

(** the requests of [get_dataset_detail] and [delete_dataset] *)
Definition detail_request (self : FastGPTKnowledgeBase) (dataset_id : string)
  : event :=
  request_of self "GET" "/core/dataset/detail" None
             (Some {[ "id" := dataset_id ]}).
Definition delete_request (self : FastGPTKnowledgeBase) (dataset_id : string)
  : event :=
  request_of self "DELETE" "/core/dataset/delete" None
             (Some {[ "id" := dataset_id ]}).

(** [v] is a JSON object *)
Definition is_object (v : json) : bool :=
  match v with JObj _ => true | _ => false end.

(** the requests of [push_data] and [search_test] *)
Definition push_request (self : FastGPTKnowledgeBase) (collection_id : string)
    (data : list (gmap string string)) (training_type : string) : event :=
  post_of self "/core/dataset/data/pushData"
          (push_data_payload collection_id data training_type).
Definition search_request (self : FastGPTKnowledgeBase) (a : SearchArgs.t)
  : event :=
  post_of self "/core/dataset/searchTest" (search_test_payload a).

(** an accepted body whose [data] is [v] *)
Definition data_body (v : json) : gmap string json :=
  {[ "code" := JNum 200; "data" := v ]}.

(** the options of a link call, carried over to a text call and to a file
    call *)
Definition text_of_link (a : LinkArgs.t) (text name : string) : TextArgs.t :=
  TextArgs.Make text (LinkArgs.dataset_id a) name (LinkArgs.training_type a)
    (LinkArgs.parent_id a) (LinkArgs.index_prefix_title a)
    (LinkArgs.custom_pdf_parse a) (LinkArgs.auto_indexes a)
    (LinkArgs.image_index a) (LinkArgs.chunk_setting_mode a)
    (LinkArgs.chunk_split_mode a) (LinkArgs.chunk_size a)
    (LinkArgs.index_size a) (LinkArgs.chunk_splitter a) (LinkArgs.qa_prompt a)
    (LinkArgs.tags a) (LinkArgs.create_time a) (LinkArgs.metadata a).
Definition file_of_link (a : LinkArgs.t) (file_path : string)
    (name : option string) : FileArgs.t :=
  FileArgs.Make (LinkArgs.dataset_id a) file_path (LinkArgs.training_type a)
    name (LinkArgs.parent_id a) (LinkArgs.index_prefix_title a)
    (LinkArgs.custom_pdf_parse a) (LinkArgs.auto_indexes a)
    (LinkArgs.image_index a) (LinkArgs.chunk_setting_mode a)
    (LinkArgs.chunk_split_mode a) (LinkArgs.chunk_size a)
    (LinkArgs.index_size a) (LinkArgs.chunk_splitter a) (LinkArgs.qa_prompt a)
    (LinkArgs.tags a) (LinkArgs.create_time a) (LinkArgs.metadata a).

(** a link call with every option set *)
Definition link_full : LinkArgs.t :=
  LinkArgs.Make "ds" "https://host/page" "qa" (Some "p1") (Some false) true
    None (Some true) "custom" "char" 1000 256 "###" "ask" ".main"
    (Some ["t1"; "t2"]) (Some "2024-01-01") None.

(** two search hits, the second one with no field but its id *)
Definition two_hits : list (gmap string json) :=
  [ {[ "id" := JStr "h1"; "q" := JStr "question"; "score" := JNum 1 ]};
    {[ "id" := JStr "h2" ]} ].

(** the fields that only one of the three ingestion payloads has, or that
    they fill differently *)
Definition own_keys : list string := ["text"; "name"; "link"; "metadata"].

(** a link call with a metadata map of its own *)
Definition link_with_metadata : LinkArgs.t :=
  LinkArgs.Make "ds" "https://host/page" "chunk" None (Some true) true
    (Some true) (Some true) "auto" "size" 1500 512 "" "" ".article"
    None None (Some {[ "source" := JStr "crawler" ]}).

(** the download and the upload of [create_file_collection] *)
Definition download_of (a : FileArgs.t) : event := Get (FileArgs.file_path a) 30.
Definition upload_of (self : FastGPTKnowledgeBase) (a : FileArgs.t)
    (bytes : string) : event :=
  PostFile (base_url self +:+ "/core/dataset/collection/create/localFile")
           (delete "Content-Type" (headers self))
           (quote (upload_name (FileArgs.name a)
                               (display_name (FileArgs.file_path a))) "")
           bytes (form_metadata_of a).

(** [ev] is a download *)
Definition is_download (ev : event) : bool :=
  match ev with Get _ _ => true | _ => false end.

(** a download that is refused *)
Definition env_forbidden : Env :=
  env_answering (Resp 403 "Forbidden" "https://host/doc.pdf" "" (inl "no JSON")).

(** a local file with an extension outside the allow-set *)
Definition png_call : FileArgs.t := FileArgs.defaults "ds" "./photo.png".
Definition png_fs : gmap string string := {[ "./photo.png" := "PNG" ]}.

(** an upload answered with an error body and no [data] *)
Definition env_rejecting : Env :=
  env_answering (Resp 200 "OK" "" "" (inr (JObj (boom_body 500)))).

(** a body without [code] *)
Definition no_code_body : gmap string json := {[ "data" := JStr "d" ]}.

End Cases.

(* ===================================================================== *)
(** * Properties                                                           *)
(* ===================================================================== *)

Import Py World Client Examples Cases.

(** the steps of a computation in [M], unfolded *)
Ltac unfold_M :=
  unfold send, raise_for_status, response_json, mbind, M_bind, mret, M_ret,
    bind, ret, raise, lift, try_except, try_finally, emit in *.

Section Models.

Lemma complete_model_kwargs (m : gmap string json) :
  complete_model m →
  ∃ a b c d, ModelConfig.from_kwargs (JObj m) = Some (ModelConfig.Make a b c d).
Proof.
  intros Hdom.
  assert (Hin : ∀ k, k ∈ model_fields → is_Some (m !! k)).
  { intros k Hk. apply elem_of_dom. by rewrite Hdom. }
  destruct (Hin "model") as [a Ha]; [set_solver|].
  destruct (Hin "name") as [b Hb]; [set_solver|].
  destruct (Hin "charsPointsPrice") as [c Hc]; [set_solver|].
  destruct (Hin "defaultToken") as [d Hd]; [set_solver|].
  exists a, b, c, d. simpl. rewrite Ha, Hb, Hc, Hd.
  assert (Hsz : size m = 4).
  { rewrite <- size_dom, Hdom. reflexivity. }
  by rewrite Hsz.
Qed.

(** C8. Deserialising the dataset-detail response of the example, whose
    [agentModel] is any complete model object, gives a [DatasetDetail]
    whose [id] is ["d1"] and whose [canWrite] is [True]. *)
Theorem from_dict_detail_example (agentModel : gmap string json) :
  complete_model agentModel →
  ∃ r, DatasetDetail.from_dict (detail_response agentModel) = Some r
       ∧ DatasetDetail.id r = JStr "d1"
       ∧ DatasetDetail.canWrite r = JBool true.
Proof.
  intros Hc. destruct (complete_model_kwargs _ Hc) as (a & b & c & d & Ham).
  assert (Hvm : detail_response agentModel !! "vectorModel"
                = Some (JObj {[ "model" := JStr "m"; "name" := JStr "n";
                                "charsPointsPrice" := JNum 0;
                                "defaultToken" := JNum 100 ]})) by done.
  assert (Ham' : detail_response agentModel !! "agentModel"
                 = Some (JObj agentModel)) by done.
  unfold DatasetDetail.from_dict, dict_get_or.
  rewrite Hvm, Ham'. cbv [default from_option id]. rewrite Ham.
  replace (ModelConfig.from_kwargs _) with
    (Some (ModelConfig.Make (JStr "m") (JStr "n") (JNum 0) (JNum 100)))
    by (by vm_compute).
  eexists. split; [reflexivity|]. split; reflexivity.
Qed.

Lemma agent_model_complete : complete_model agent_model.
Proof.
  unfold complete_model, agent_model, model_fields.
  rewrite !dom_insert_L, dom_singleton_L. set_solver.
Qed.

Lemma from_dict_detail_example_witness :
  complete_model agent_model
  ∧ ∃ r, DatasetDetail.from_dict (detail_response agent_model) = Some r
         ∧ DatasetDetail.id r = JStr "d1"
         ∧ DatasetDetail.canWrite r = JBool true.
Proof.
  split; [exact agent_model_complete|].
  exact (from_dict_detail_example agent_model agent_model_complete).
Defined.

End Models.

Section Payload.

Lemma request_trace env self method endpoint json params s :
  trace (_request env self method endpoint json params s).2
  = (trace s ++ [Request method (base_url self +:+ endpoint) (headers self)
                         json params])%list.
Proof.
  unfold _request. unfold_M. cbn.
  repeat case_match; simplify_eq/=; reflexivity.
Qed.

Lemma create_text_collection_trace env self a s :
  trace (create_text_collection env self a s).2
  = (trace s ++ [text_request self a])%list.
Proof.
  unfold create_text_collection, _post, text_request, text_endpoint.
  pose proof (request_trace env self "POST"
                "/core/dataset/collection/create/text"
                (Some (create_text_collection_payload a)) None s) as H.
  unfold_M. destruct (_request _ _ _ _ _ _ s) as [[r|e] s']; cbn in *;
    [destruct (getitem r "data")|]; exact H.
Qed.

Lemma lookup_setitem_if_ne c k k' v (d : gmap string json) :
  k ≠ k' → setitem_if c k v d !! k' = d !! k'.
Proof. intros. unfold setitem_if. destruct c; by simplify_map_eq. Qed.

Lemma lookup_setitem_if_eq c k v (d : gmap string json) :
  setitem_if c k v d !! k = if c then Some v else d !! k.
Proof. unfold setitem_if. destruct c; by simplify_map_eq. Qed.

Lemma lookup_setitem_some_ne o k k' (d : gmap string json) :
  k ≠ k' → setitem_some o k d !! k' = d !! k'.
Proof. intros. unfold setitem_some. destruct o; by simplify_map_eq. Qed.

(** the optional fields do not touch a key other than their own *)
Ltac payload_lookup :=
  unfold create_text_collection_payload; cbv zeta;
  repeat first
    [ rewrite lookup_setitem_if_ne by done
    | rewrite lookup_setitem_some_ne by done
    | rewrite lookup_setitem_if_eq ].

Lemma payload_chunk_keys_not_custom (a : TextArgs.t) (k : string) :
  k ∈ ["chunkSplitMode"; "chunkSize"; "indexSize"; "chunkSplitter"] →
  String.eqb (TextArgs.chunk_setting_mode a) "custom" = false →
  create_text_collection_payload a !! k = None.
Proof.
  intros Hk Hmode. set_unfold in Hk.
  destruct Hk as [->|[->|[->|[->|[]]]]]; payload_lookup; rewrite Hmode;
    by simplify_map_eq.
Qed.

Lemma payload_chunk_keys_custom (a : TextArgs.t) :
  String.eqb (TextArgs.chunk_setting_mode a) "custom" = true →
  let payload := create_text_collection_payload a in
  payload !! "chunkSplitMode" = Some (JStr (TextArgs.chunk_split_mode a))
  ∧ payload !! "chunkSize" = Some (JNum (TextArgs.chunk_size a))
  ∧ payload !! "indexSize" = Some (JNum (TextArgs.index_size a))
  ∧ payload !! "chunkSplitter"
    = if String.eqb (TextArgs.chunk_splitter a) "" then None
      else Some (JStr (TextArgs.chunk_splitter a)).
Proof.
  intros Hmode. cbv zeta.
  repeat split; payload_lookup; rewrite Hmode; payload_lookup;
    try by simplify_map_eq.
  destruct (String.eqb (TextArgs.chunk_splitter a) ""); by simplify_map_eq.
Qed.

Lemma payload_qa_prompt (a : TextArgs.t) :
  create_text_collection_payload a !! "qaPrompt"
  = if String.eqb (TextArgs.training_type a) "qa"
       && negb (String.eqb (TextArgs.qa_prompt a) "")
    then Some (JStr (TextArgs.qa_prompt a)) else None.
Proof.
  payload_lookup.
  destruct (String.eqb (TextArgs.training_type a) "qa"
            && negb (String.eqb (TextArgs.qa_prompt a) "")); [done|].
  destruct (String.eqb (TextArgs.chunk_setting_mode a) "custom");
    payload_lookup; by simplify_map_eq.
Qed.

(** C5, as stated, fails: with [chunk_setting_mode="custom"] and the
    default [chunk_splitter=""], the payload that goes out has no
    [chunkSplitter] key. *)
Lemma text_payload_custom_without_splitter :
  TextArgs.chunk_setting_mode text_custom_default = "custom"
  ∧ trace (create_text_collection env_ok kb text_custom_default (start ∅)).2
    = [text_request kb text_custom_default]
  ∧ create_text_collection_payload text_custom_default !! "chunkSplitter"
    = None.
Proof.
  split; [reflexivity|]. split.
  - by rewrite create_text_collection_trace.
  - pose proof (payload_chunk_keys_custom text_custom_default eq_refl) as H.
    cbv zeta in H. by destruct H as (_ & _ & _ & ->).
Qed.

(** C5, amended.  The payload that [create_text_collection] posts has, in
    mode ["auto"], none of the keys [chunkSplitMode], [chunkSize],
    [indexSize], [chunkSplitter], whatever was passed for them; in mode
    ["custom"] it has [chunkSplitMode], [chunkSize] and [indexSize] with the
    passed values, and [chunkSplitter] with the passed value exactly when
    that value is not the empty string. *)
Theorem text_payload_chunk_fields env self (a : TextArgs.t) s :
  let payload := create_text_collection_payload a in
  trace (create_text_collection env self a s).2
  = (trace s ++ [text_request self a])%list
  ∧ (TextArgs.chunk_setting_mode a = "auto" →
       ∀ k, k ∈ ["chunkSplitMode"; "chunkSize"; "indexSize"; "chunkSplitter"] →
            payload !! k = None)
  ∧ (TextArgs.chunk_setting_mode a = "custom" →
       payload !! "chunkSplitMode" = Some (JStr (TextArgs.chunk_split_mode a))
       ∧ payload !! "chunkSize" = Some (JNum (TextArgs.chunk_size a))
       ∧ payload !! "indexSize" = Some (JNum (TextArgs.index_size a))
       ∧ (TextArgs.chunk_splitter a ≠ "" →
            payload !! "chunkSplitter"
            = Some (JStr (TextArgs.chunk_splitter a)))
       ∧ (TextArgs.chunk_splitter a = "" →
            payload !! "chunkSplitter" = None)).
Proof.
  cbv zeta. split; [apply create_text_collection_trace|]. split.
  - intros Hmode k Hk. apply payload_chunk_keys_not_custom; [done|].
    by rewrite Hmode.
  - intros Hmode.
    assert (Hc : String.eqb (TextArgs.chunk_setting_mode a) "custom" = true)
      by (by rewrite Hmode).
    destruct (payload_chunk_keys_custom a Hc) as (H1 & H2 & H3 & H4).
    repeat split; try done.
    + intros Hne. rewrite H4.
      by destruct (String.eqb_spec (TextArgs.chunk_splitter a) "").
    + intros He. rewrite H4. by rewrite He.
Qed.

Lemma text_payload_chunk_fields_witness :
  create_text_collection_payload text_custom_full !! "chunkSplitter"
  = Some (JStr "###")
  ∧ create_text_collection_payload text_auto_full !! "chunkSize" = None.
Proof.
  split.
  - destruct (text_payload_chunk_fields env_ok kb text_custom_full (start ∅))
      as (_ & _ & Hc).
    destruct (Hc eq_refl) as (_ & _ & _ & Hs & _).
    apply Hs. discriminate.
  - destruct (text_payload_chunk_fields env_ok kb text_auto_full (start ∅))
      as (_ & Ha & _).
    apply (Ha eq_refl). apply list_elem_of_In. simpl. tauto.
Defined.

(** C6. The payload that [create_text_collection] posts has the key
    [qaPrompt] if and only if [training_type] is ["qa"] and [qa_prompt] is
    not the empty string; its value is then the prompt. *)
Theorem text_payload_qa_prompt env self (a : TextArgs.t) s :
  let payload := create_text_collection_payload a in
  trace (create_text_collection env self a s).2
  = (trace s ++ [text_request self a])%list
  ∧ (is_Some (payload !! "qaPrompt")
     ↔ TextArgs.training_type a = "qa" ∧ TextArgs.qa_prompt a ≠ "")
  ∧ (∀ v, payload !! "qaPrompt" = Some v → v = JStr (TextArgs.qa_prompt a)).
Proof.
  cbv zeta. split; [apply create_text_collection_trace|].
  rewrite payload_qa_prompt.
  destruct (String.eqb_spec (TextArgs.training_type a) "qa") as [Ht|Ht];
    destruct (String.eqb_spec (TextArgs.qa_prompt a) "") as [Hq|Hq];
    cbn [andb negb]; (split; [split|]);
    try (intros [? ?]; done); try (intros [? [=]]); try (intros ? [=]);
    try done; try (intros; congruence); try (intros [? ?]; congruence).
Qed.

Lemma text_payload_qa_prompt_witness :
  create_text_collection_payload text_qa !! "qaPrompt" = Some (JStr "ask").
Proof.
  destruct (text_payload_qa_prompt env_ok kb text_qa (start ∅))
    as (_ & Hiff & Hval).
  destruct (proj2 Hiff) as [v Hv]; [split; [reflexivity|discriminate]|].
  rewrite Hv. f_equal. exact (Hval v Hv).
Defined.

End Payload.

Section Transport.

Lemma append_empty_r (s : string) : s +:+ "" = s.
Proof.
  induction s as [|c s IH]; [done|].
  change (String c (s +:+ "") = String c s). by rewrite IH.
Qed.

Lemma substring_of_suffix (pre s : string) : substring_of s (pre +:+ s).
Proof. exists pre, "". by rewrite append_empty_r. Qed.

Lemma raise_for_status_ok (r : response) s :
  ¬ (400 ≤ status_code r < 600)%Z → raise_for_status r s = (Return (), s).
Proof.
  intros H. unfold raise_for_status.
  destruct (400 <=? status_code r)%Z eqn:E1, (status_code r <? 500)%Z eqn:E2,
    (500 <=? status_code r)%Z eqn:E3, (status_code r <? 600)%Z eqn:E4;
    cbn; try reflexivity; exfalso; lia.
Qed.

(** C4, as stated, fails twice.  A body whose [code] is [0], a value other
    than 200 and 201, is returned as a normal result; and under transport
    status 500 the error of a body with [code] 500 carries the text of the
    transport error, not the body's message. *)
Lemma request_code_zero_returns :
  in_ints (JNum 0) [200; 201]%Z = false
  ∧ (_request (env_answering (boom_response 200 "OK" 0)) kb
              "GET" "/x" None None (start ∅)).1
    = Return (JObj (boom_body 0))
  ∧ (_request (env_answering (boom_response 500 "Internal Server Error" 500))
              kb "GET" "/x" None None (start ∅)).1
    = Raise (Exn Exception
        "Request Failed: 500 Server Error: Internal Server Error for url: http://localhost:3000/api/x").
Proof. split; [reflexivity|]. split; by vm_compute. Qed.

(** C4, amended.  When the response passes the transport check (its status
    is not in 400..599) and the [code] of its body is truthy and neither 200
    nor 201, [_request] raises the one request-failure error, whose message
    is ["Request Failed: FastGPT API Error: "] followed by the body's
    message; a message that is a string is a substring of it. *)
Theorem request_service_error env self method endpoint json params s r d :
  http env (Request method (base_url self +:+ endpoint) (headers self)
                    json params) = Response r →
  ¬ (400 ≤ status_code r < 600)%Z →
  json_body r = inr (JObj d) →
  truthy (dict_get d "code") = true →
  in_ints (dict_get d "code") [200; 201]%Z = false →
  (_request env self method endpoint json params s).1
  = Raise (Exn Exception ("Request Failed: FastGPT API Error: "
                          +:+ str env (dict_get d "message")))
  ∧ (∀ m, d !! "message" = Some (JStr m) →
       ∃ text, (_request env self method endpoint json params s).1
               = Raise (Exn Exception text)
               ∧ substring_of m text).
Proof.
  intros Hhttp Hst Hbody Hcode Hin.
  assert (Hrun : (_request env self method endpoint json params s).1
    = Raise (Exn Exception ("Request Failed: FastGPT API Error: "
                            +:+ str env (dict_get d "message")))).
  { unfold _request, try_except, mbind, M_bind, bind, send, emit.
    cbn -[truthy in_ints dict_get str]. rewrite Hhttp.
    cbn -[truthy in_ints dict_get str]. rewrite raise_for_status_ok by done.
    unfold response_json. rewrite Hbody.
    cbn -[truthy in_ints dict_get str]. rewrite Hcode, Hin. reflexivity. }
  split; [exact Hrun|].
  intros m Hm. eexists. split; [exact Hrun|].
  unfold dict_get. rewrite Hm. cbn.
  apply (substring_of_suffix "Request Failed: FastGPT API Error: " m).
Qed.

Lemma request_service_error_witness :
  ∃ text,
    (_request (env_answering (boom_response 200 "OK" 500)) kb
              "POST" "/x" None None (start ∅)).1
    = Raise (Exn Exception text)
    ∧ substring_of "boom" text.
Proof.
  refine (proj2 (request_service_error
            (env_answering (boom_response 200 "OK" 500)) kb "POST" "/x"
            None None (start ∅) (boom_response 200 "OK" 500) (boom_body 500)
            eq_refl _ eq_refl eq_refl eq_refl) "boom" eq_refl).
  cbn. lia.
Defined.

End Transport.

Section FileIngestion.

Lemma urlparse_path_return env url path :
  urlparse_path env url = Return path → path = url_path url.
Proof. unfold urlparse_path. repeat case_match; congruence. Qed.

Lemma parses_path env file_path :
  parses env file_path →
  urlparse_path env file_path = Return (url_path file_path).
Proof.
  intros [path Hp]. by rewrite <- (urlparse_path_return _ _ _ Hp).
Qed.

(** a URL whose network location is plain ASCII without brackets is
    accepted whatever the environment *)
Lemma plain_host_parses env : parses env "https://host/doc.jpg".
Proof. by eexists. Qed.

(** the exception of [urlparse] leaves [resolve_source] as it is *)
Lemma resolve_source_unparsed env file_path s e :
  is_url file_path = true →
  urlparse_path env file_path = Raise e →
  resolve_source env file_path s = (Raise e, s).
Proof.
  intros Hu Hp. unfold resolve_source. rewrite Hu.
  unfold mbind, M_bind, bind, lift. by rewrite Hp.
Qed.

Lemma resolve_source_unsupported_url env file_path s :
  is_url file_path = true →
  parses env file_path →
  allowed (file_ext_of (url_filename_of file_path)) = false →
  resolve_source env file_path s
  = (Raise (Exn ValueError
              (unsupported_msg env (file_ext_of (url_filename_of file_path)))),
     s).
Proof.
  intros Hu Hp Ha. unfold resolve_source. rewrite Hu.
  unfold mbind, M_bind, bind, lift. rewrite (parses_path _ _ Hp).
  fold (url_filename_of file_path). by rewrite Ha.
Qed.

Lemma resolve_source_not_found env file_path s :
  is_url file_path = false →
  files s !! file_path = None →
  resolve_source env file_path s
  = (Raise (Exn FileNotFoundError (not_found_msg file_path)), s).
Proof.
  intros Hu Hf. unfold resolve_source. rewrite Hu.
  unfold mbind, M_bind, bind, os_path_exists. rewrite Hf.
  rewrite bool_decide_eq_false_2 by (by intros [? ?]). reflexivity.
Qed.

Lemma body_raises_with_source env self a s e s' :
  resolve_source env (FileArgs.file_path a) s = (Raise e, s') →
  create_file_collection_body env self a s = (Raise e, s').
Proof.
  intros H. unfold create_file_collection_body, mbind, M_bind, bind.
  by rewrite H.
Qed.

(** an exception of the body raised before a temporary file is recorded
    reaches the caller wrapped, and the state is the one the body left *)
Lemma create_file_collection_wraps env self a fs e s' :
  create_file_collection_body env self a (start fs) = (Raise e, s') →
  temp_file_path s' = None →
  create_file_collection env self a (start fs)
  = (Raise (Exn Exception ("File Upload Failed: " +:+ msg e)), s').
Proof.
  intros Hbody Htmp.
  unfold create_file_collection, set_temp_file_path, try_finally, try_except,
    mbind, M_bind, bind. cbn [files trace start].
  change (St fs [] None) with (start fs). rewrite Hbody.
  unfold raise, cleanup, get_temp_file_path, mbind, M_bind, bind.
  rewrite Htmp. reflexivity.
Qed.

(** the display name and the extension of some source references *)
Example url_filename_examples :
  url_filename_of "https://host/doc.jpg" = "doc.jpg"
  ∧ url_filename_of "https://host/a%20b/%E5%B9%B4.PDF;v=1?x=1#top" = "年.PDF"
  ∧ file_ext_of "年.PDF" = "pdf"
  ∧ file_ext_of "archive.tar.gz" = "gz"
  ∧ file_ext_of "README" = ""
  ∧ quote "年 报/a.pdf" "" = "%E5%B9%B4%20%E6%8A%A5%2Fa.pdf".
Proof. repeat split; by vm_compute. Qed.

(** A URL that [urlparse] refuses: the [ValueError] of line 395 is raised
    inside the [try], so the call fails with its message, wrapped, before
    the extension is looked at and with nothing sent. *)
Example unmatched_bracket_url_is_refused env self fs :
  create_file_collection env self bracket_url_call (start fs)
  = (Raise (Exn Exception "File Upload Failed: Invalid IPv6 URL"), start fs).
Proof.
  apply (create_file_collection_wraps env self bracket_url_call fs
           (Exn ValueError "Invalid IPv6 URL") (start fs)); [|done].
  apply body_raises_with_source.
  by apply (resolve_source_unparsed env "https://[host/doc.jpg").
Qed.

Lemma not_allowed_false (file_ext : string) :
  file_ext ∉ ALLOWED_EXTENSIONS → allowed file_ext = false.
Proof. intros H. unfold allowed. by apply bool_decide_eq_false_2. Qed.

Lemma jpg_not_allowed :
  file_ext_of (url_filename_of "https://host/doc.jpg") ∉ ALLOWED_EXTENSIONS.
Proof. apply (bool_decide_eq_false_1 _). by vm_compute. Qed.



(** C9. For a local path that does not exist, the [try] body raises the
    not-found error, whatever the extension of the path: the
    unsupported-format error is not produced, and nothing is sent. *)
Theorem missing_local_path_not_found env self (a : FileArgs.t) fs :
  is_url (FileArgs.file_path a) = false →
  fs !! FileArgs.file_path a = None →
  create_file_collection_body env self a (start fs)
  = (Raise (Exn FileNotFoundError (not_found_msg (FileArgs.file_path a))),
     start fs)
  ∧ (∀ file_ext,
       (create_file_collection_body env self a (start fs)).1
       ≠ Raise (Exn ValueError (unsupported_msg env file_ext)))
  ∧ create_file_collection env self a (start fs)
    = (Raise (Exn Exception ("File Upload Failed: "
                             +:+ not_found_msg (FileArgs.file_path a))),
       start fs).
Proof.
  intros Hu Hf.
  assert (Hbody : create_file_collection_body env self a (start fs)
            = (Raise (Exn FileNotFoundError
                        (not_found_msg (FileArgs.file_path a))), start fs)).
  { by apply body_raises_with_source, resolve_source_not_found. }
  split; [exact Hbody|]. split.
  - intros file_ext. rewrite Hbody. cbn. discriminate.
  - exact (create_file_collection_wraps _ _ _ _ _ _ Hbody eq_refl).
Qed.

Lemma missing_local_path_not_found_witness :
  (file_ext_of (basename "./notes.jpg") ∉ ALLOWED_EXTENSIONS)
  ∧ create_file_collection_body env_ok kb missing_jpg_call (start ∅)
    = (Raise (Exn FileNotFoundError (not_found_msg "./notes.jpg")), start ∅).
Proof.
  split.
  - apply (bool_decide_eq_false_1 _). by vm_compute.
  - exact (proj1 (missing_local_path_not_found env_ok kb missing_jpg_call ∅
                    eq_refl eq_refl)).
Defined.

(** C2 does not hold of the code.  For ["https://host/doc.jpg"] the body
    raises a [ValueError] whose message names the extension and the allowed
    formats, and for a missing local path a [FileNotFoundError]; the
    [except Exception] clause around the body turns both into the generic
    [Exception], which is what the caller receives. *)
Theorem distinguishable_errors_are_wrapped env self fs :
  (create_file_collection_body env self jpg_url_call (start fs)).1
  = Raise (Exn ValueError
             ("不支持的文件格式: jpg. 仅允许以下格式: "
              +:+ join ", " (allowed_order env)))
  ∧ (create_file_collection env self jpg_url_call (start fs)).1
    = Raise (Exn Exception
               ("File Upload Failed: 不支持的文件格式: jpg. 仅允许以下格式: "
                +:+ join ", " (allowed_order env)))
  ∧ (create_file_collection_body env self missing_pdf_call (start ∅)).1
    = Raise (Exn FileNotFoundError "文件不存在: ./missing.pdf")
  ∧ (create_file_collection env self missing_pdf_call (start ∅)).1
    = Raise (Exn Exception "File Upload Failed: 文件不存在: ./missing.pdf").
Proof.
  assert (H1 : create_file_collection_body env self jpg_url_call (start fs)
    = (Raise (Exn ValueError (unsupported_msg env "jpg")), start fs)).
  { apply body_raises_with_source.
    apply (resolve_source_unsupported_url env "https://host/doc.jpg");
      [reflexivity|apply plain_host_parses|].
    apply not_allowed_false, jpg_not_allowed. }
  assert (H2 : create_file_collection_body env self missing_pdf_call (start ∅)
    = (Raise (Exn FileNotFoundError (not_found_msg "./missing.pdf")),
       start ∅)).
  { by apply body_raises_with_source, resolve_source_not_found. }
  rewrite (create_file_collection_wraps _ _ _ _ _ _ H1 eq_refl),
    (create_file_collection_wraps _ _ _ _ _ _ H2 eq_refl), H1, H2.
  repeat split.
Qed.

(** ** The temporary file *)

Lemma cleanup_returns env s : (cleanup env s).1 = Return ().
Proof.
  unfold cleanup, get_temp_file_path, os_path_exists, os_unlink.
  unfold_M. cbn.
  repeat case_match; simplify_eq/=; reflexivity.
Qed.

(** the call is its [try] body, the wrapping of what the body raises, and
    the [finally] block, which contributes no exception of its own *)
Lemma create_file_collection_unfold env self a s :
  create_file_collection env self a s
  = (wrapped (create_file_collection_body env self a
                (St (files s) (trace s) None)).1,
     (cleanup env (create_file_collection_body env self a
                     (St (files s) (trace s) None)).2).2).
Proof.
  unfold create_file_collection, set_temp_file_path, try_finally, try_except,
    mbind, M_bind, bind, raise.
  destruct (create_file_collection_body env self a _) as [[v|e] s1]; cbn;
    pose proof (cleanup_returns env s1) as Hc;
    destruct (cleanup env s1) as [[[]|e'] s2]; cbn in *; congruence.
Qed.

Lemma body_ignores_unlink env u self a s :
  create_file_collection_body (with_unlink env u) self a s
  = create_file_collection_body env self a s.
Proof. reflexivity. Qed.

Lemma temp_path_truthy env file_ext :
  truthy_str (Some (temp_path env file_ext)) = true.
Proof. unfold temp_path. by destruct (tmp_stem env). Qed.

Lemma upload_keeps_files env self p n md s :
  files (upload env self p n md s).2 = files s
  ∧ temp_file_path (upload env self p n md s).2 = temp_file_path s.
Proof.
  unfold upload, open_rb, collection_id_of. unfold_M. cbn.
  repeat case_match; simplify_eq/=; done.
Qed.

Lemma resolve_source_download env file_path s r :
  is_url file_path = true →
  parses env file_path →
  allowed (file_ext_of (url_filename_of file_path)) = true →
  http env (Get file_path 30) = Response r →
  ¬ (400 ≤ status_code r < 600)%Z →
  mkstemp_error env = None →
  write_error env = None →
  let tmp := temp_path env (file_ext_of (url_filename_of file_path)) in
  resolve_source env file_path s
  = (Return (tmp, url_filename_of file_path),
     St (<[tmp := content r]> (<[tmp := ""]> (files s)))
        (trace s ++ [Get file_path 30]) (Some tmp)).
Proof.
  intros Hu Hp Ha Hget Hst Hmk Hwr tmp.
  unfold resolve_source. rewrite Hu.
  unfold mbind, M_bind. unfold bind at 1. unfold lift.
  rewrite (parses_path _ _ Hp). fold (url_filename_of file_path).
  rewrite Ha. cbn [negb].
  unfold send, emit, bind. rewrite Hget. cbn.
  rewrite raise_for_status_ok by done.
  unfold NamedTemporaryFile, file_write. rewrite Hmk, Hwr. reflexivity.
Qed.

(** When the write to the temporary file raises, [temp_file_path] has not
    been assigned yet: the [finally] block has nothing to delete and the
    file that [NamedTemporaryFile] created stays on disk. *)
Example temp_file_left_when_write_fails :
  (create_file_collection env_write_fails kb pdf_url_call (start ∅)).1
  = Raise (Exn Exception
             "File Upload Failed: [Errno 28] No space left on device")
  ∧ files (create_file_collection env_write_fails kb pdf_url_call (start ∅)).2
      !! "/tmp/tmpab12cd.pdf"
    = Some "".
Proof. split; by vm_compute. Qed.

(** C1, as stated, fails: the download and the upload succeed and the call
    returns the collection id, the unlinking of the temporary file fails and
    is swallowed, and the file is still on disk with the downloaded bytes. *)
Lemma temp_file_survives_failed_unlink :
  is_url (FileArgs.file_path pdf_url_call) = true
  ∧ (create_file_collection env_unlink_fails kb pdf_url_call (start ∅)).1
    = Return (JStr "c1")
  ∧ files (create_file_collection env_unlink_fails kb pdf_url_call (start ∅)).2
      !! "/tmp/tmpab12cd.pdf"
    = Some "PDFBYTES".
Proof. split; [reflexivity|]. split; by vm_compute. Qed.

(** C1, amended.  For a URL source that is parsed and validated, whose
    download succeeds and whose bytes are written to the temporary file,
    when the call returns (with a collection id or with an error) the
    temporary file is gone provided its deletion does not fail; when the
    deletion fails the file stays, with the downloaded bytes, and in neither
    case does the outcome of the deletion change what the caller
    receives. *)
Theorem temp_file_removed_unless_unlink_fails env self (a : FileArgs.t) fs r :
  is_url (FileArgs.file_path a) = true →
  parses env (FileArgs.file_path a) →
  file_ext_of (url_filename_of (FileArgs.file_path a)) ∈ ALLOWED_EXTENSIONS →
  http env (Get (FileArgs.file_path a) 30) = Response r →
  ¬ (400 ≤ status_code r < 600)%Z →
  mkstemp_error env = None →
  write_error env = None →
  let tmp :=
    temp_path env (file_ext_of (url_filename_of (FileArgs.file_path a))) in
  let final := (create_file_collection env self a (start fs)).2 in
  (unlink_error env tmp = None → files final !! tmp = None)
  ∧ (unlink_error env tmp ≠ None → files final !! tmp = Some (content r))
  ∧ (∀ u, (create_file_collection (with_unlink env u) self a (start fs)).1
          = (create_file_collection env self a (start fs)).1).
Proof.
  intros Hu Hp Hext Hget Hst Hmk Hwr tmp final.
  assert (Ha : allowed (file_ext_of (url_filename_of (FileArgs.file_path a)))
               = true) by (by apply bool_decide_eq_true_2).
  pose proof (resolve_source_download env _ (start fs) r Hu Hp Ha Hget Hst Hmk
                Hwr) as Hsrc. cbv zeta in Hsrc. subst tmp.
  split; [|split].
  3:{ intros u. rewrite !create_file_collection_unfold.
      cbn [fst]. by rewrite body_ignores_unlink. }
  all: subst final; rewrite create_file_collection_unfold; cbn [snd];
    change (St (files (start fs)) (trace (start fs)) None) with (start fs);
    unfold create_file_collection_body, mbind, M_bind; unfold bind at 1;
    rewrite Hsrc;
    match goal with
    | |- context [upload ?e ?sf ?p ?n ?md ?st] =>
        destruct (upload_keeps_files e sf p n md st) as [Hf Ht];
        destruct (upload e sf p n md st) as [res s2]
    end; cbn [snd files temp_file_path] in *;
    unfold cleanup, get_temp_file_path, os_path_exists, os_unlink,
      mbind, M_bind, bind, try_except, ret, raise;
    rewrite Ht, temp_path_truthy; cbn [default from_option id];
    rewrite Hf, lookup_insert_eq;
    rewrite bool_decide_eq_true_2 by eauto.
  - intros Hun. rewrite Hun. cbn. by rewrite Hf, lookup_delete_eq.
  - intros Hun. destruct (unlink_error env _); [|done].
    cbn. by rewrite Hf, lookup_insert_eq.
Qed.

Lemma temp_file_removed_unless_unlink_fails_witness :
  files (create_file_collection env_ok kb pdf_url_call (start ∅)).2
    !! temp_path env_ok "pdf" = None.
Proof.
  refine (proj1 (temp_file_removed_unless_unlink_fails env_ok kb pdf_url_call
            ∅ (Resp 200 "OK" "https://host/doc.pdf" "PDFBYTES" (inl "no JSON"))
            eq_refl _ _ eq_refl _ eq_refl eq_refl) eq_refl).
  - by eexists.
  - apply (bool_decide_eq_true_1 _). by vm_compute.
  - cbn. lia.
Defined.

(** ** The upload *)

Lemma cleanup_keeps_trace env s : trace (cleanup env s).2 = trace s.
Proof.
  unfold cleanup, get_temp_file_path, os_path_exists, os_unlink.
  unfold_M. cbn.
  repeat case_match; simplify_eq/=; reflexivity.
Qed.

Lemma resolve_source_trace env file_path s ev :
  ev ∈ trace (resolve_source env file_path s).2 →
  ev ∈ trace s ∨ ev = Get file_path 30.
Proof.
  unfold resolve_source, NamedTemporaryFile, file_write, set_temp_file_path,
    os_path_exists.
  unfold_M. cbn.
  repeat case_match; simplify_eq/=; intros Hev; try (by left);
    (apply elem_of_app in Hev as [?| ->%list_elem_of_singleton];
     [by left|by right]).
Qed.

Lemma resolve_source_filename env file_path s p filename s' :
  resolve_source env file_path s = (Return (p, filename), s') →
  filename = display_name file_path.
Proof.
  unfold resolve_source, display_name, NamedTemporaryFile, file_write,
    set_temp_file_path, os_path_exists, url_filename_of.
  unfold_M. cbn.
  repeat case_match; simplify_eq/=;
    repeat match goal with
           | H : urlparse_path _ _ = Return _ |- _ =>
               apply urlparse_path_return in H; subst
           end; congruence.
Qed.

(** reading the answer of the service leaves the state alone *)
Lemma read_answer_state (r : response) s :
  ((raise_for_status r ≫= λ _, response_json r ≫= collection_id_of) s).2 = s.
Proof.
  unfold collection_id_of. unfold_M.
  repeat case_match; simplify_eq/=; reflexivity.
Qed.

(** [upload], step by step: the file is opened, the multipart request goes
    out, and the answer is read *)
Lemma upload_unfold env self p n md s :
  upload env self p n md s
  = match open_error env p with
    | Some m => (Raise (Exn OSError m), s)
    | None =>
        match files s !! p with
        | None =>
            (Raise (Exn FileNotFoundError
               ("[Errno 2] No such file or directory: '" +:+ p +:+ "'")), s)
        | Some f =>
            let ev :=
              PostFile
                (base_url self +:+ "/core/dataset/collection/create/localFile")
                (delete "Content-Type" (headers self)) n f md in
            let s1 := St (files s) (trace s ++ [ev]) (temp_file_path s) in
            match http env ev with
            | NoResponse m => (Raise (Exn RequestException m), s1)
            | Response r =>
                (((raise_for_status r ≫= λ _,
                   response_json r ≫= collection_id_of) s1).1, s1)
            end
        end
    end.
Proof.
  unfold upload, open_rb. unfold mbind at 1 2, M_bind at 1 2.
  unfold bind at 1, raise at 1.
  destruct (open_error env p); [reflexivity|].
  destruct (files s !! p) as [f|]; [|reflexivity].
  unfold send, emit. unfold bind at 1 2. cbn [fst snd].
  destruct (http env _) as [m|r]; [reflexivity|].
  unfold ret at 1.
  match goal with
  | |- ?x = _ => rewrite (surjective_pairing x)
  end.
  f_equal. apply (read_answer_state r).
Qed.

Lemma upload_trace env self p n md s ev :
  ev ∈ trace (upload env self p n md s).2 →
  ev ∈ trace s
  ∨ ∃ f, ev = PostFile
                (base_url self +:+ "/core/dataset/collection/create/localFile")
                (delete "Content-Type" (headers self)) n f md.
Proof.
  rewrite upload_unfold.
  destruct (open_error env p); [by left|].
  destruct (files s !! p) as [f|]; [|by left].
  cbv zeta. destruct (http env _); cbn [snd trace];
    (intros [?| ->%list_elem_of_singleton]%elem_of_app; [by left|right; eauto]).
Qed.

Lemma collection_id_of_data (m : gmap string json) d s :
  m !! "data" = Some d →
  collection_id_of (JObj m) s = (Return (nested_or_data d), s).
Proof.
  intros Hd. unfold collection_id_of, nested_or_data. unfold_M. cbn.
  rewrite Hd. destruct d as [| | | | |dm]; try reflexivity.
  cbn. by destruct (dm !! "collectionId").
Qed.

Lemma upload_answer env self p n md s ev r m d :
  ev ∈ trace (upload env self p n md s).2 →
  ev ∉ trace s →
  http env ev = Response r →
  ¬ (400 ≤ status_code r < 600)%Z →
  json_body r = inr (JObj m) →
  m !! "data" = Some d →
  (upload env self p n md s).1 = Return (nested_or_data d).
Proof.
  intros Hev Hnew Hhttp Hst Hbody Hd. revert Hev.
  rewrite upload_unfold.
  destruct (open_error env p); [done|].
  destruct (files s !! p) as [f|]; [|done].
  cbv zeta.
  set (ev0 := PostFile _ _ _ _ _).
  assert (Hin : ∀ x : result json,
    ev ∈ trace (x, St (files s) (trace s ++ [ev0]) (temp_file_path s)).2 →
    ev = ev0).
  { intros x [?| ->%list_elem_of_singleton]%elem_of_app; done. }
  destruct (http env ev0) as [msg|r0] eqn:Hev0; intros ->%Hin.
  - congruence.
  - assert (r0 = r) as -> by congruence. cbn [fst].
    unfold mbind, M_bind. unfold bind at 1.
    rewrite raise_for_status_ok by done.
    unfold response_json. rewrite Hbody. unfold bind, ret.
    by rewrite (collection_id_of_data _ _ _ Hd).
Qed.

(** the requests of a call that starts with nothing sent: at most the
    download, and then the upload *)
Lemma create_file_collection_trace env self (a : FileArgs.t) fs ev :
  ev ∈ trace (create_file_collection env self a (start fs)).2 →
  ev = Get (FileArgs.file_path a) 30
  ∨ ∃ p filename s1,
      resolve_source env (FileArgs.file_path a) (start fs)
      = (Return (p, filename), s1)
      ∧ (∀ x, x ∈ trace s1 → x = Get (FileArgs.file_path a) 30)
      ∧ ev ∈ trace (upload env self p
                      (quote (upload_name (FileArgs.name a) filename) "")
                      (form_metadata_of a) s1).2
      ∧ (create_file_collection env self a (start fs)).1
        = wrapped (upload env self p
                     (quote (upload_name (FileArgs.name a) filename) "")
                     (form_metadata_of a) s1).1.
Proof.
  rewrite create_file_collection_unfold. cbn [fst snd].
  rewrite cleanup_keeps_trace.
  change (St (files (start fs)) (trace (start fs)) None) with (start fs).
  unfold create_file_collection_body, mbind, M_bind. unfold bind.
  assert (Hsrc : ∀ x, x ∈ trace (resolve_source env (FileArgs.file_path a)
                                   (start fs)).2 →
                      x = Get (FileArgs.file_path a) 30).
  { intros x [Hx| ->]%resolve_source_trace; [|done]. by inversion Hx. }
  destruct (resolve_source env (FileArgs.file_path a) (start fs))
    as [[[p filename]|e] s1]; cbn [snd] in *.
  - intros Hev. right. by exists p, filename, s1.
  - intros Hev. left. by apply Hsrc.
Qed.

(** C7. When the upload has gone out and its answer passes the transport
    check and is a JSON object with a [data] payload, the call returns
    normally: the nested [collectionId] when [data] is an object that has
    one, and [data] itself otherwise. *)
Theorem upload_returns_nested_or_data env self (a : FileArgs.t) fs ev r m d :
  ev ∈ trace (create_file_collection env self a (start fs)).2 →
  is_Some (upload_filename ev) →
  http env ev = Response r →
  ¬ (400 ≤ status_code r < 600)%Z →
  json_body r = inr (JObj m) →
  m !! "data" = Some d →
  (create_file_collection env self a (start fs)).1 = Return (nested_or_data d)
  ∧ (∀ dm c, d = JObj dm → dm !! "collectionId" = Some c →
             nested_or_data d = c)
  ∧ ((∀ dm, d = JObj dm → dm !! "collectionId" = None) →
     nested_or_data d = d).
Proof.
  intros Hev Hup Hhttp Hst Hbody Hd. split; [|split].
  - destruct (create_file_collection_trace _ _ _ _ _ Hev)
      as [->|(p & filename & s1 & _ & Hs1 & Hin & ->)].
    { by destruct Hup. }
    rewrite (upload_answer env self _ _ _ s1 ev r m d Hin); try done.
    intros Hold. apply Hs1 in Hold. subst ev. by destruct Hup.
  - intros dm c -> Hc. cbn. by rewrite Hc.
  - intros Hnone. destruct d as [| | | | |dm]; try reflexivity.
    cbn. by rewrite (Hnone dm eq_refl).
Qed.

Lemma pdf_upload_sent :
  pdf_upload ∈ trace (create_file_collection env_ok kb pdf_url_call (start ∅)).2.
Proof. apply list_elem_of_In. vm_compute. right. left. reflexivity. Qed.

Lemma local_upload_sent_flat :
  local_upload
  ∈ trace (create_file_collection env_flat kb local_call (start local_fs)).2.
Proof. apply list_elem_of_In. vm_compute. left. reflexivity. Qed.

Lemma upload_returns_nested_or_data_witness :
  (create_file_collection env_ok kb pdf_url_call (start ∅)).1
  = Return (JStr "c1")
  ∧ (create_file_collection env_flat kb local_call (start local_fs)).1
    = Return (JStr "c2").
Proof.
  split.
  - refine (proj1 (upload_returns_nested_or_data env_ok kb pdf_url_call ∅
              pdf_upload _ nested_answer
              (JObj {[ "collectionId" := JStr "c1" ]})
              pdf_upload_sent _ eq_refl _ eq_refl eq_refl)).
    + by eexists.
    + cbn. lia.
  - refine (proj1 (upload_returns_nested_or_data env_flat kb local_call
              local_fs local_upload _ {[ "data" := JStr "c2" ]} (JStr "c2")
              local_upload_sent_flat _ eq_refl _ eq_refl eq_refl)).
    + by eexists.
    + cbn. lia.
Defined.

(** ** The name of the uploaded file *)

Lemma all_chars_app (P : ascii → bool) (s t : string) :
  all_chars P (s +:+ t) = all_chars P s && all_chars P t.
Proof.
  induction s as [|c s IH]; [done|].
  change (String c s +:+ t) with (String c (s +:+ t)).
  cbn. by rewrite IH, andb_assoc.
Qed.

Lemma percent_quoted (c : ascii) : all_chars quoted_char (percent c) = true.
Proof. by destruct c as [[] [] [] [] [] [] [] []]. Qed.

Lemma quote_quoted (s : string) : all_chars quoted_char (quote s "") = true.
Proof.
  induction s as [|c s IH]; [done|].
  cbn [quote in_str]. rewrite all_chars_app, IH, orb_false_r, andb_true_r.
  destruct (always_safe c) eqn:Hc; [|apply percent_quoted].
  cbn. unfold quoted_char. by rewrite Hc.
Qed.

Lemma with_name_empty_is_none env self (a : FileArgs.t) s :
  create_file_collection env self (FileArgs.with_name a (Some "")) s
  = create_file_collection env self (FileArgs.with_name a None) s.
Proof. reflexivity. Qed.

(** C10. An empty [name] behaves as no [name]; the file part of the upload
    is named by [name] when that is a non-empty string and by the display
    name derived from the path or URL otherwise, and that name is
    percent-encoded with an empty [safe] set, so that it consists of
    always-safe characters and escapes only. *)
Theorem upload_name_percent_encoded env self (a : FileArgs.t) fs :
  create_file_collection env self (FileArgs.with_name a (Some "")) (start fs)
  = create_file_collection env self (FileArgs.with_name a None) (start fs)
  ∧ (∀ ev n,
       ev ∈ trace (create_file_collection env self a (start fs)).2 →
       upload_filename ev = Some n →
       n = quote (match FileArgs.name a with
                  | Some x =>
                      if String.eqb x "" then
                        display_name (FileArgs.file_path a)
                      else x
                  | None => display_name (FileArgs.file_path a)
                  end) ""
       ∧ all_chars quoted_char n = true).
Proof.
  split; [apply with_name_empty_is_none|].
  intros ev n Hev Hn.
  assert (Heq : n = quote (upload_name (FileArgs.name a)
                             (display_name (FileArgs.file_path a))) "").
  { destruct (create_file_collection_trace _ _ _ _ _ Hev)
      as [->|(p & filename & s1 & Hsrc & Hs1 & Hin & _)]; [done|].
    apply resolve_source_filename in Hsrc as ->.
    apply upload_trace in Hin as [Hold|[f ->]].
    - apply Hs1 in Hold. by subst ev.
    - cbn in Hn. congruence. }
  split; [|rewrite Heq; apply quote_quoted].
  rewrite Heq. unfold upload_name, truthy_str.
  destruct (FileArgs.name a) as [x|]; [|done].
  by destruct (String.eqb x "").
Qed.

Lemma local_upload_sent :
  local_upload
  ∈ trace (create_file_collection env_ok kb local_call (start local_fs)).2.
Proof. apply list_elem_of_In. vm_compute. left. reflexivity. Qed.

Lemma upload_name_percent_encoded_witness :
  "a%20b.pdf" = quote (display_name "./a b.pdf") ""
  ∧ all_chars quoted_char "a%20b.pdf" = true.
Proof.
  exact (proj2 (upload_name_percent_encoded env_ok kb local_call local_fs)
           local_upload "a%20b.pdf" local_upload_sent eq_refl).
Defined.

End FileIngestion.

(* ===================================================================== *)
(** * Further properties of the client                                     *)
(* ===================================================================== *)

Section Requests.

Lemma raise_for_status_error (r : response) s :
  (400 ≤ status_code r < 600)%Z →
  raise_for_status r s = (Raise (Exn HTTPError (http_error_text r)), s).
Proof.
  intros H. unfold raise_for_status, http_error_text, raise.
  destruct (400 <=? status_code r)%Z eqn:E1, (status_code r <? 500)%Z eqn:E2,
    (500 <=? status_code r)%Z eqn:E3, (status_code r <? 600)%Z eqn:E4;
    cbn; try reflexivity; exfalso; lia.
Qed.

Lemma code_accepted_check (d : gmap string json) :
  code_accepted d
  ↔ truthy (dict_get d "code")
    && negb (in_ints (dict_get d "code") [200; 201]%Z) = false.
Proof.
  unfold code_accepted, dict_get.
  destruct (d !! "code") as [c|]; cbv [default from_option id].
  - split.
    + intros [?|[(c' & [= <-] & ->)|(c' & [= <-] & ->)]]; [done|done|].
      by rewrite andb_false_r.
    + intros [H|H%negb_false_iff]%andb_false_iff; [right; left|right; right];
        eauto.
  - split; [done|by left].
Qed.

(** [_request], step by step *)
Lemma request_unfold env self method endpoint json params s :
  _request env self method endpoint json params s
  = (match http env (request_of self method endpoint json params) with
     | NoResponse m => Raise (Exn Exception ("Request Failed: " +:+ m))
     | Response r =>
         if bool_decide (400 ≤ status_code r < 600)%Z then
           Raise (Exn Exception ("Request Failed: " +:+ http_error_text r))
         else
           match json_body r with
           | inl m => Raise (Exn Exception ("Request Failed: " +:+ m))
           | inr (JObj d) =>
               if truthy (dict_get d "code")
                  && negb (in_ints (dict_get d "code") [200; 201]%Z)
               then Raise (Exn Exception
                      ("Request Failed: FastGPT API Error: "
                       +:+ str env (dict_get d "message")))
               else Return (JObj d)
           | inr v =>
               Raise (Exn Exception ("Request Failed: " +:+ msg (no_get_error v)))
           end
     end,
     sent s (request_of self method endpoint json params)).
Proof.
  unfold _request, request_of, sent, try_except, mbind, M_bind, send, emit.
  unfold bind at 1 2. cbn [fst snd files trace temp_file_path].
  destruct (http env _) as [m|r]; [reflexivity|].
  unfold ret at 1. unfold bind at 1.
  case_bool_decide as Hst.
  - by rewrite raise_for_status_error.
  - rewrite raise_for_status_ok by done.
    unfold response_json, bind. destruct (json_body r) as [m|v]; [reflexivity|].
    unfold ret at 1.
    destruct v; try reflexivity.
    by destruct (truthy _ && negb _).
Qed.

(** X1. Whatever the network does, [_request] sends exactly one request, to
    the base URL followed by the endpoint and with the client's headers,
    leaves the files alone, and either returns a JSON object or raises the
    one error ["Request Failed: ..."] of class [Exception]. *)
Theorem request_sends_once_and_normalises env self method endpoint json
    params s :
  (_request env self method endpoint json params s).2
  = sent s (request_of self method endpoint json params)
  ∧ ((∃ d, (_request env self method endpoint json params s).1
           = Return (JObj d))
     ∨ (∃ m, (_request env self method endpoint json params s).1
             = Raise (Exn Exception ("Request Failed: " +:+ m)))).
Proof.
  rewrite request_unfold. split; [reflexivity|]. cbn [fst].
  destruct (http env _) as [m|r]; [by right; eexists|].
  case_bool_decide; [by right; eexists|].
  destruct (json_body r) as [m|v]; [by right; eexists|].
  destruct v; try (by right; eexists).
  destruct (truthy _ && negb _); [by right; eexists|by left; eexists].
Qed.

(** X2. [_request] returns a value exactly when the answer passes the
    transport check (status outside 400..599), its body is a JSON object,
    and the [code] of that object is absent, falsy, 200 or 201; the value
    is then the body, unchanged. *)
Theorem request_returns_iff env self method endpoint json params s v :
  (_request env self method endpoint json params s).1 = Return v
  ↔ ∃ r d,
      http env (request_of self method endpoint json params) = Response r
      ∧ ¬ (400 ≤ status_code r < 600)%Z
      ∧ json_body r = inr (JObj d)
      ∧ code_accepted d
      ∧ v = JObj d.
Proof.
  rewrite request_unfold. cbn [fst]. split.
  - destruct (http env _) as [m|r]; [done|].
    case_bool_decide as Hst; [done|].
    destruct (json_body r) as [m|b] eqn:Hb; [done|].
    destruct b as [| | | | |d]; try done.
    destruct (truthy _ && negb _) eqn:Hc; [done|].
    intros [= <-]. exists r, d. split_and!; try done.
    by apply code_accepted_check.
  - intros (r & d & -> & Hst & -> & Hc%code_accepted_check & ->).
    rewrite bool_decide_eq_false_2 by done. by rewrite Hc.
Qed.

Lemma request_returns_iff_witness :
  (_request (env_answering (ok_response no_code_body)) kb "GET" "/x" None None
            (start ∅)).1
  = Return (JObj no_code_body).
Proof.
  apply (proj2 (request_returns_iff (env_answering (ok_response no_code_body))
                  kb "GET" "/x" None None (start ∅) (JObj no_code_body))).
  exists (ok_response no_code_body), no_code_body.
  split; [reflexivity|]. split; [cbn; lia|]. split; [reflexivity|].
  split; [by left|reflexivity].
Defined.

(** X3. When the transport status is in 400..599, [_request] fails with the
    text of the transport error, whatever the body of the answer says. *)
Theorem request_transport_error env self method endpoint json params s r :
  http env (request_of self method endpoint json params) = Response r →
  (400 ≤ status_code r < 600)%Z →
  (_request env self method endpoint json params s).1
  = Raise (Exn Exception ("Request Failed: " +:+ http_error_text r)).
Proof.
  intros Hhttp Hst. rewrite request_unfold, Hhttp. cbn [fst].
  by rewrite bool_decide_eq_true_2.
Qed.

Lemma request_transport_error_witness :
  (_request (env_answering not_found_answer) kb "GET" "/x" None None
            (start ∅)).1
  = Raise (Exn Exception
             "Request Failed: 404 Client Error: Not Found for url: http://localhost:3000/api/x").
Proof.
  refine (request_transport_error (env_answering not_found_answer) kb "GET"
            "/x" None None (start ∅) not_found_answer eq_refl _).
  cbn. lia.
Defined.

End Requests.

Section Operations.

Lemma app_cons (c : ascii) (s t : string) :
  String c s +:+ t = String c (s +:+ t).
Proof. reflexivity. Qed.

Lemma app_nil (t : string) : "" +:+ t = t.
Proof. reflexivity. Qed.

Lemma rstrip_app_char (c : ascii) (s : string) :
  rstrip c (s +:+ String c "") = rstrip c s.
Proof.
  induction s as [|x s IH].
  - rewrite app_nil. cbn. by rewrite Ascii.eqb_refl.
  - rewrite app_cons. cbn [rstrip]. by rewrite IH.
Qed.

Lemma rstrip_no_trailing (c : ascii) (s t : string) :
  rstrip c s ≠ t +:+ String c "".
Proof.
  revert t. induction s as [|x s IH]; intros t.
  - destruct t; rewrite ?app_nil, ?app_cons; cbn; congruence.
  - cbn [rstrip]. destruct (rstrip c s) as [|y r] eqn:Hr.
    + destruct (Ascii.eqb_spec x c) as [->|Hx];
        destruct t as [|z [|z' t]]; rewrite ?app_nil, ?app_cons;
        congruence.
    + destruct t as [|z t]; rewrite ?app_nil, ?app_cons; [congruence|].
      intros [= -> Ht]. by apply (IH t).
Qed.

(** X4. Trailing slashes of the base URL do not matter: the client built
    from [b + "/"] is the client built from [b], and its base URL never
    ends with a slash. *)
Theorem init_drops_trailing_slashes (b api_key : string) :
  __init__ (b +:+ "/") api_key = __init__ b api_key
  ∧ ∀ t, base_url (__init__ b api_key) ≠ t +:+ "/".
Proof.
  split.
  - unfold __init__. by rewrite (rstrip_app_char "/" b).
  - intros t. apply rstrip_no_trailing.
Qed.

Lemma init_drops_trailing_slashes_witness :
  __init__ ("http://localhost:3000/api" +:+ "/") "key"
  = __init__ "http://localhost:3000/api" "key"
  ∧ base_url (__init__ "http://localhost:3000/api" "key") ≠ "x" +:+ "/".
Proof.
  split.
  - exact (proj1 (init_drops_trailing_slashes "http://localhost:3000/api" "key")).
  - exact (proj2 (init_drops_trailing_slashes "http://localhost:3000/api" "key")
             "x").
Defined.

Lemma request_answers env self method endpoint json params s d :
  answers env (request_of self method endpoint json params) d →
  _request env self method endpoint json params s
  = (Return (JObj d), sent s (request_of self method endpoint json params)).
Proof.
  intros (r & Hr & Hst & Hb & Hc%code_accepted_check).
  rewrite request_unfold, Hr, Hb, Hc.
  by rewrite bool_decide_eq_false_2.
Qed.

(** an operation that posts a payload and returns [res['data']] *)
Lemma post_data_answers env self endpoint payload s d :
  answers env (post_of self endpoint payload) d →
  (_post env self endpoint (Some payload)
     ≫= λ res, lift (getitem res "data")) s
  = (data_or_key_error d, sent s (post_of self endpoint payload)).
Proof.
  intros Ha. unfold mbind, M_bind, bind, _post.
  rewrite (request_answers _ _ _ _ _ _ _ _ Ha).
  unfold lift, getitem, data_or_key_error. by destruct (d !! "data").
Qed.

(** X5. The operations that return [res['data']] read it outside the
    wrapper of [_request]: on an accepted answer they return its [data]
    whatever it is, and when the answer has no [data] they raise
    [KeyError('data')] itself, not a request failure. *)
Theorem operations_return_data_or_key_error env self s d
    (da : DatasetArgs.t) (ea : EmptyArgs.t) (ta : TextArgs.t)
    (la : LinkArgs.t) :
  (answers env (post_of self "/core/dataset/create"
                        (create_dataset_payload da)) d →
   (create_dataset env self da s).1 = data_or_key_error d)
  ∧ (answers env (post_of self "/core/dataset/collection/create"
                          (create_empty_collection_payload ea)) d →
     (create_empty_collection env self ea s).1 = data_or_key_error d)
  ∧ (answers env (post_of self "/core/dataset/collection/create/text"
                          (create_text_collection_payload ta)) d →
     (create_text_collection env self ta s).1 = data_or_key_error d)
  ∧ (answers env (post_of self "/core/dataset/collection/create/link"
                          (create_link_collection_payload la)) d →
     (create_link_collection env self la s).1 = data_or_key_error d).
Proof.
  split_and!; intros Ha;
    unfold create_dataset, create_empty_collection, create_text_collection,
      create_link_collection;
    by rewrite (post_data_answers _ _ _ _ _ _ Ha).
Qed.

Lemma model_kwargs_iff (m : gmap string json) :
  is_Some (ModelConfig.from_kwargs (JObj m)) ↔ complete_model m.
Proof.
  split.
  - intros [r Hr]. cbn in Hr.
    destruct (m !! "model") eqn:H1; [|done].
    destruct (m !! "name") eqn:H2; [|done].
    destruct (m !! "charsPointsPrice") eqn:H3; [|done].
    destruct (m !! "defaultToken") eqn:H4; [|done].
    destruct (Nat.eqb_spec (size m) 4) as [Hsz|]; [|done].
    unfold complete_model. symmetry. apply set_subseteq_size_eq.
    + intros k Hk. apply elem_of_dom.
      unfold model_fields in Hk.
      repeat (apply elem_of_union in Hk as [Hk|Hk]);
        apply elem_of_singleton in Hk; subst k; eauto.
    + rewrite size_dom, Hsz. reflexivity.
  - intros Hc. destruct (complete_model_kwargs m Hc) as (a & b & c & d & ->).
    eauto.
Qed.

Lemma model_kwargs_object (v : json) :
  is_Some (ModelConfig.from_kwargs v) → ∃ m, v = JObj m.
Proof. destruct v; intros [? ?]; try done. eauto. Qed.

(** X6. [DatasetDetail.from_dict] succeeds exactly when both [vectorModel]
    and [agentModel] are present and are objects with the four model fields
    and no other key: the default [{}] for an absent model makes the
    constructor fail, and so does an extra or a missing field. *)
Theorem from_dict_succeeds_iff (data : gmap string json) :
  is_Some (DatasetDetail.from_dict data)
  ↔ (∃ vm, data !! "vectorModel" = Some (JObj vm) ∧ complete_model vm)
    ∧ (∃ am, data !! "agentModel" = Some (JObj am) ∧ complete_model am).
Proof.
  assert (Hget : ∀ k,
    is_Some (ModelConfig.from_kwargs (dict_get_or data k (JObj ∅)))
    ↔ ∃ m, data !! k = Some (JObj m) ∧ complete_model m).
  { intros k. unfold dict_get_or. destruct (data !! k) as [v|] eqn:Hk;
      cbv [default from_option id].
    - split.
      + intros Hs. destruct (model_kwargs_object _ Hs) as [m ->].
        exists m. split; [done|]. by apply model_kwargs_iff.
      + intros (m & [= ->] & Hc). by apply model_kwargs_iff.
    - split; [by intros [? ?]|]. by intros (m & ? & _). }
  rewrite <- !Hget. unfold DatasetDetail.from_dict.
  destruct (ModelConfig.from_kwargs (dict_get_or data "vectorModel" _));
    destruct (ModelConfig.from_kwargs (dict_get_or data "agentModel" _));
    split; try (by intros [[? ?] [? ?]]); try (by intros [? ?]); eauto.
Qed.

Lemma from_dict_succeeds_iff_witness :
  is_Some (DatasetDetail.from_dict (detail_response agent_model)).
Proof.
  apply (proj2 (from_dict_succeeds_iff (detail_response agent_model))).
  split.
  - eexists. split; [reflexivity|].
    unfold complete_model, model_fields.
    rewrite !dom_insert_L, dom_singleton_L. set_solver.
  - exists agent_model. split; [reflexivity|apply agent_model_complete].
Defined.

(** X7. [get_dataset_detail] sends one GET with the id as its only query
    parameter and no body.  On an accepted answer whose [data] is an object
    it returns what [from_dict] makes of it; when [data] is anything else,
    such as [null], the [AttributeError] of [data.get] reaches the caller as
    it is. *)
Theorem get_dataset_detail_reads_data env self dataset_id s d :
  answers env (detail_request self dataset_id) d →
  (get_dataset_detail env self dataset_id s).2
  = sent s (detail_request self dataset_id)
  ∧ (∀ dd r, d !! "data" = Some (JObj dd) →
       DatasetDetail.from_dict dd = Some r →
       (get_dataset_detail env self dataset_id s).1 = Return r)
  ∧ (∀ v, d !! "data" = Some v → is_object v = false →
       (get_dataset_detail env self dataset_id s).1
       = Raise (Exn AttributeError
                  ("'" +:+ type_name v +:+ "' object has no attribute 'get'"))).
Proof.
  intros Ha. unfold get_dataset_detail, _get, mbind, M_bind, bind.
  rewrite (request_answers _ _ _ _ _ _ _ _ Ha). fold (detail_request self dataset_id).
  unfold lift, getitem. split_and!.
  - destruct (d !! "data") as [v|]; [|done].
    unfold from_dict_any. destruct v; try done.
    by destruct (DatasetDetail.from_dict _).
  - intros dd r -> Hr. cbn. by rewrite Hr.
  - intros v -> Hv. by destruct v.
Qed.

Lemma get_dataset_detail_reads_data_witness :
  (get_dataset_detail (env_answering (ok_response {[ "data" := JNull ]})) kb
                      "d1" (start ∅)).1
  = Raise (Exn AttributeError "'NoneType' object has no attribute 'get'").
Proof.
  refine (proj2 (proj2 (get_dataset_detail_reads_data
            (env_answering (ok_response {[ "data" := JNull ]})) kb "d1"
            (start ∅) {[ "data" := JNull ]} _)) JNull eq_refl eq_refl).
  exists (ok_response {[ "data" := JNull ]}).
  split; [reflexivity|]. split; [cbn; lia|]. split; [reflexivity|by left].
Defined.

(** X8. [delete_dataset] sends one DELETE with the id as its query
    parameter; it never returns [False], and it returns [True] for every
    accepted answer without looking at what the answer carries. *)
Theorem delete_dataset_true_or_raises env self dataset_id s :
  (delete_dataset env self dataset_id s).2
  = sent s (delete_request self dataset_id)
  ∧ (∀ b, (delete_dataset env self dataset_id s).1 = Return b → b = true)
  ∧ (∀ d, answers env (delete_request self dataset_id) d →
          (delete_dataset env self dataset_id s).1 = Return true).
Proof.
  unfold delete_dataset, _delete, mbind, M_bind, bind.
  assert (Hs : (_request env self "DELETE" "/core/dataset/delete" None
                         (Some {[ "id" := dataset_id ]}) s).2
               = sent s (delete_request self dataset_id))
    by (by rewrite request_unfold).
  split_and!.
  - destruct (_request _ _ _ _ _ _ s) as [[v|e] s1]; exact Hs.
  - intros b. destruct (_request _ _ _ _ _ _ s) as [[v|e] s1]; [|done].
    by intros [= <-].
  - intros d Ha. by rewrite (request_answers _ _ _ _ _ _ _ _ Ha).
Qed.

Lemma delete_dataset_true_or_raises_witness :
  (delete_dataset (env_answering (ok_response {[ "data" := JBool false ]})) kb
                  "d1" (start ∅)).1
  = Return true.
Proof.
  refine (proj2 (proj2 (delete_dataset_true_or_raises
            (env_answering (ok_response {[ "data" := JBool false ]})) kb "d1"
            (start ∅))) {[ "data" := JBool false ]} _).
  exists (ok_response {[ "data" := JBool false ]}).
  split; [reflexivity|]. split; [cbn; lia|]. split; [reflexivity|by left].
Defined.

Lemma operations_return_data_or_key_error_witness :
  (create_dataset (env_answering (ok_response {[ "code" := JNum 200 ]})) kb
                  (DatasetArgs.defaults "KB") (start ∅)).1
  = Raise (Exn KeyError "'data'").
Proof.
  refine (proj1 (operations_return_data_or_key_error
            (env_answering (ok_response {[ "code" := JNum 200 ]})) kb (start ∅)
            {[ "code" := JNum 200 ]} (DatasetArgs.defaults "KB")
            (EmptyArgs.defaults "ds" "f") (TextArgs.defaults "t" "ds" "n")
            (LinkArgs.defaults "ds" "l")) _).
  exists (ok_response {[ "code" := JNum 200 ]}).
  split; [reflexivity|]. split; [cbn; lia|]. split; [reflexivity|].
  right. right. by eexists.
Defined.

(** X9. [push_data] posts the records and builds [PushResults] from the
    [data] of an accepted answer: [insertLen] is taken from it and each list
    it does not mention is empty; a [data] with a key that is no field of
    [PushResults], or without [insertLen], makes the constructor raise
    [TypeError], which reaches the caller unwrapped. *)
Theorem push_data_builds_results env self collection_id data training_type
    s d (pd : gmap string json) :
  answers env (push_request self collection_id data training_type) d →
  d !! "data" = Some (JObj pd) →
  let run := push_data env self collection_id data training_type s in
  run.2 = sent s (push_request self collection_id data training_type)
  ∧ (∀ n, pd !! "insertLen" = Some n → dom pd ⊆ PushResults.fields →
       ∃ r, run.1 = Return r
            ∧ PushResults.insertLen r = n
            ∧ (pd !! "overToken" = None → PushResults.overToken r = JArr [])
            ∧ (pd !! "repeat" = None → PushResults.repeat r = JArr [])
            ∧ (pd !! "error" = None → PushResults.error r = JArr []))
  ∧ (∀ k, k ∈ dom pd → k ∉ PushResults.fields →
       ∃ m, run.1 = Raise (Exn TypeError m))
  ∧ (pd !! "insertLen" = None → ∃ m, run.1 = Raise (Exn TypeError m)).
Proof.
  intros Ha Hd run. subst run.
  unfold push_data, mbind, M_bind, bind, _post.
  unfold push_request, post_of in Ha.
  rewrite (request_answers _ _ _ _ _ _ _ _ Ha).
  unfold lift, getitem. rewrite Hd. cbn [PushResults.from_kwargs].
  split_and!.
  - by repeat case_match.
  - intros n Hn Hsub. rewrite Hn, bool_decide_eq_true_2 by done.
    eexists. split; [reflexivity|]. cbn. unfold dict_get_or.
    split_and!; try done; by intros ->.
  - intros k Hk Hnot. destruct (pd !! "insertLen"); [|by eexists].
    rewrite bool_decide_eq_false_2; [by eexists|].
    intros Hsub. by apply Hnot, Hsub.
  - intros ->. by eexists.
Qed.

Lemma push_data_builds_results_witness :
  ∃ r, (push_data (env_answering
                     (ok_response (data_body (JObj {[ "insertLen" := JNum 2 ]}))))
                  kb "c1" [] "chunk" (start ∅)).1 = Return r
       ∧ PushResults.insertLen r = JNum 2
       ∧ PushResults.overToken r = JArr [].
Proof.
  destruct (push_data_builds_results
              (env_answering
                 (ok_response (data_body (JObj {[ "insertLen" := JNum 2 ]}))))
              kb "c1" [] "chunk" (start ∅)
              (data_body (JObj {[ "insertLen" := JNum 2 ]}))
              {[ "insertLen" := JNum 2 ]}) as (_ & Hok & _).
  - eexists. split; [reflexivity|]. split; [cbn; lia|].
    split; [reflexivity|]. right. right. by eexists.
  - reflexivity.
  - destruct (Hok (JNum 2) eq_refl) as (r & Hr & Hn & Ho & _).
    + rewrite dom_singleton_L. unfold PushResults.fields.
      apply elem_of_subseteq_singleton, elem_of_union_l, elem_of_union_l,
        elem_of_union_l, elem_of_singleton. reflexivity.
    + exists r. split; [exact Hr|]. split; [exact Hn|]. by apply Ho.
Defined.

Lemma items_of_objects (items : list (gmap string json)) :
  items_of (JObj <$> items) = Return (SearchTestResult.from_list items).
Proof.
  induction items as [|item items IH]; [done|].
  cbn [fmap list_fmap items_of]. fold (@fmap list _ _ _ JObj items).
  by rewrite IH.
Qed.

Lemma items_of_bad_item (l : list json) (v : json) :
  v ∈ l → is_object v = false →
  ∃ m, items_of l = Raise (Exn AttributeError m).
Proof.
  intros Hin Hv. induction l as [|x l IH]; [by inversion Hin|].
  destruct (is_object x) eqn:Hx.
  - destruct x as [| | | | |o]; try done. cbn [items_of].
    destruct IH as [t ->]; [|by eexists].
    apply elem_of_cons in Hin as [->|?]; [done|done].
  - destruct x; try done; by eexists.
Qed.

(** X10. On an accepted answer whose [data.list] is an array of objects,
    [search_test] returns one hit per object, in the order of the array and
    however many there are: the client neither sorts nor cuts the list to
    [limit].  A field that an object lacks gets its default. *)
Theorem search_test_returns_every_hit env self (a : SearchArgs.t) s d dd
    (items : list (gmap string json)) :
  answers env (search_request self a) d →
  d !! "data" = Some (JObj dd) →
  dd !! "list" = Some (JArr (JObj <$> items)) →
  let run := search_test env self a s in
  run.2 = sent s (search_request self a)
  ∧ run.1 = Return (SearchResultItem.of_item <$> items)
  ∧ (∀ hits, run.1 = Return hits →
       length hits = length items
       ∧ ∀ i item, items !! i = Some item →
           SearchResultItem.id <$> hits !! i
           = Some (default (JStr "") (item !! "id"))).
Proof.
  intros Ha Hd Hl run. subst run.
  unfold search_test, mbind, M_bind, bind, _post.
  unfold search_request, post_of in Ha.
  rewrite (request_answers _ _ _ _ _ _ _ _ Ha).
  unfold lift, getitem. rewrite Hd, Hl. cbn [from_list_any fst snd].
  rewrite items_of_objects. split_and!; try done.
  intros hits [= <-]. unfold SearchTestResult.from_list.
  split; [by rewrite length_fmap|].
  intros i item Hi. by rewrite list_lookup_fmap, Hi.
Qed.

Lemma search_test_returns_every_hit_witness :
  (search_test (env_answering
                  (ok_response
                     (data_body (JObj {[ "list" := JArr (JObj <$> two_hits) ]}))))
               kb (SearchArgs.Make "ds" "query" 1 (JNum 0) false) (start ∅)).1
  = Return (SearchResultItem.of_item <$> two_hits).
Proof.
  refine (proj1 (proj2 (search_test_returns_every_hit
            (env_answering
               (ok_response
                  (data_body (JObj {[ "list" := JArr (JObj <$> two_hits) ]}))))
            kb (SearchArgs.Make "ds" "query" 1 (JNum 0) false) (start ∅)
            (data_body (JObj {[ "list" := JArr (JObj <$> two_hits) ]}))
            {[ "list" := JArr (JObj <$> two_hits) ]} two_hits _ eq_refl
            eq_refl))).
  eexists. split; [reflexivity|]. split; [cbn; lia|].
  split; [reflexivity|]. right. right. by eexists.
Defined.

(** X11. When one element of [data.list] is not an object, [search_test]
    returns no hit at all: the [AttributeError] of [item.get] reaches the
    caller, outside the wrapper of [_request]. *)
Theorem search_test_bad_item_raises env self (a : SearchArgs.t) s d dd
    (l : list json) (v : json) :
  answers env (search_request self a) d →
  d !! "data" = Some (JObj dd) →
  dd !! "list" = Some (JArr l) →
  v ∈ l → is_object v = false →
  ∃ m, (search_test env self a s).1 = Raise (Exn AttributeError m).
Proof.
  intros Ha Hd Hl Hin Hv.
  unfold search_test, mbind, M_bind, bind, _post.
  unfold search_request, post_of in Ha.
  rewrite (request_answers _ _ _ _ _ _ _ _ Ha).
  unfold lift, getitem. rewrite Hd, Hl. cbn [from_list_any fst snd].
  destruct (items_of_bad_item l v Hin Hv) as [m ->]. by exists m.
Qed.

Lemma search_test_bad_item_raises_witness :
  ∃ m, (search_test
          (env_answering
             (ok_response
                (data_body (JObj {[ "list" := JArr [JObj ∅; JNull] ]}))))
          kb (SearchArgs.defaults "ds" "query") (start ∅)).1
       = Raise (Exn AttributeError m).
Proof.
  refine (search_test_bad_item_raises
            (env_answering
               (ok_response
                  (data_body (JObj {[ "list" := JArr [JObj ∅; JNull] ]}))))
            kb (SearchArgs.defaults "ds" "query") (start ∅)
            (data_body (JObj {[ "list" := JArr [JObj ∅; JNull] ]}))
            {[ "list" := JArr [JObj ∅; JNull] ]} [JObj ∅; JNull] JNull
            _ eq_refl eq_refl _ eq_refl).
  - eexists. split; [reflexivity|]. split; [cbn; lia|].
    split; [reflexivity|]. right. right. by eexists.
  - apply list_elem_of_further, list_elem_of_here.
Defined.

End Operations.

Section Payloads.

Lemma lookup_setitem_some_eq o k (d : gmap string json) :
  setitem_some o k d !! k = match o with
                            | Some b => Some (JBool b)
                            | None => d !! k
                            end.
Proof. unfold setitem_some. destruct o; by simplify_map_eq. Qed.

Lemma lookup_setitem_if_congr c k v (d1 d2 : gmap string json) k' :
  d1 !! k' = d2 !! k' → setitem_if c k v d1 !! k' = setitem_if c k v d2 !! k'.
Proof.
  intros H. unfold setitem_if. destruct c; [|done].
  destruct (decide (k = k')) as [->|]; by simplify_map_eq.
Qed.

Lemma lookup_setitem_some_congr o k (d1 d2 : gmap string json) k' :
  d1 !! k' = d2 !! k' → setitem_some o k d1 !! k' = setitem_some o k d2 !! k'.
Proof.
  intros H. unfold setitem_some. destruct o; [|done].
  destruct (decide (k = k')) as [->|]; by simplify_map_eq.
Qed.

Lemma lookup_insert_congr k (v : json) (d1 d2 : gmap string json) k' :
  d1 !! k' = d2 !! k' → <[k := v]> d1 !! k' = <[k := v]> d2 !! k'.
Proof. intros H. destruct (decide (k = k')) as [->|]; by simplify_map_eq. Qed.

(** X12. [create_empty_collection] posts [tags] exactly when a non-empty
    list is passed, and always posts a [metadata] object, the empty one
    when none or an empty one is passed. *)
Theorem empty_collection_payload_fields (a : EmptyArgs.t) :
  let payload := create_empty_collection_payload a in
  (is_Some (payload !! "tags")
   ↔ ∃ t ts, EmptyArgs.tags a = Some (t :: ts))
  ∧ (∀ ts, EmptyArgs.tags a = Some ts → ts ≠ [] →
       payload !! "tags" = Some (JArr (JStr <$> ts)))
  ∧ (∃ m, payload !! "metadata" = Some (JObj m)
          ∧ ((EmptyArgs.metadata a = None ∨ EmptyArgs.metadata a = Some ∅) →
             m = ∅)).
Proof.
  cbv zeta. unfold create_empty_collection_payload.
  rewrite lookup_setitem_if_eq, lookup_setitem_if_ne by done.
  split_and!.
  - destruct (EmptyArgs.tags a) as [[|t ts]|]; cbn.
    + split; [by intros [? ?]|by intros (? & ? & ?)].
    + split; eauto.
    + split; [by intros [? ?]|by intros (? & ? & ?)].
  - intros ts -> Hts. by destruct ts.
  - unfold metadata_or_empty.
    destruct (EmptyArgs.metadata a) as [m|] eqn:Hm.
    + destruct (Nat.eqb_spec (size m) 0) as [Hz|Hz].
      * exists ∅. split; [by simplify_map_eq|done].
      * exists m. split; [by simplify_map_eq|].
        intros [?|[= ->]]; [done|]. by rewrite map_size_empty in Hz.
    + exists ∅. split; [by simplify_map_eq|done].
Qed.

Lemma empty_collection_payload_fields_witness :
  create_empty_collection_payload
    (EmptyArgs.Make "ds" "folder" (Some "folder") None (Some ["a"; "b"]) None)
    !! "tags"
  = Some (JArr [JStr "a"; JStr "b"]).
Proof.
  refine (proj1 (proj2 (empty_collection_payload_fields
            (EmptyArgs.Make "ds" "folder" (Some "folder") None
                            (Some ["a"; "b"]) None)))
            ["a"; "b"] eq_refl _).
  discriminate.
Defined.

(** X13. In [create_link_collection] the [selector] is used only when no
    metadata is passed: a non-empty [metadata] map is posted as it is and
    the selector is dropped, so that the payload is the same for every
    selector; without metadata the payload's metadata is the selector
    alone. *)
Theorem link_selector_only_without_metadata (a : LinkArgs.t) :
  let payload := create_link_collection_payload a in
  (∀ m, LinkArgs.metadata a = Some m → m ≠ ∅ →
     payload !! "metadata" = Some (JObj m))
  ∧ ((LinkArgs.metadata a = None ∨ LinkArgs.metadata a = Some ∅) →
     payload !! "metadata"
     = Some (JObj {[ "webPageSelector" := JStr (LinkArgs.selector a) ]})).
Proof.
  cbv zeta. unfold create_link_collection_payload.
  rewrite !lookup_setitem_if_ne, !lookup_setitem_some_ne by done.
  rewrite lookup_setitem_if_ne by done.
  assert (Hbase : ∀ p : gmap string json,
    (if String.eqb (LinkArgs.chunk_setting_mode a) "custom" then
       setitem_if (negb (String.eqb (LinkArgs.chunk_splitter a) ""))
         "chunkSplitter" (JStr (LinkArgs.chunk_splitter a))
         (<["indexSize" := JNum (LinkArgs.index_size a)]>
            (<["chunkSize" := JNum (LinkArgs.chunk_size a)]>
               (<["chunkSplitMode" := JStr (LinkArgs.chunk_split_mode a)]> p)))
     else p) !! "metadata" = p !! "metadata").
  { intros p. destruct (String.eqb _ "custom"); [|done].
    rewrite lookup_setitem_if_ne by done. by simplify_map_eq. }
  rewrite Hbase. unfold metadata_or_selector. split.
  - intros m -> Hm. destruct (Nat.eqb_spec (size m) 0) as [Hz|Hz].
    + by apply map_size_empty_inv in Hz.
    + by simplify_map_eq.
  - intros [-> | ->]; [by simplify_map_eq|].
    rewrite map_size_empty. by simplify_map_eq.
Qed.

Lemma link_selector_only_without_metadata_witness :
  create_link_collection_payload link_with_metadata !! "metadata"
  = Some (JObj {[ "source" := JStr "crawler" ]}).
Proof.
  refine (proj1 (link_selector_only_without_metadata link_with_metadata)
            {[ "source" := JStr "crawler" ]} eq_refl _).
  intros H. apply (f_equal (λ m : gmap string json, m !! "source")) in H.
  by rewrite lookup_singleton_eq in H.
Defined.

(** peel the optional fields off a lookup of another key *)
Ltac peel :=
  repeat first
    [ rewrite lookup_setitem_if_ne by done
    | rewrite lookup_setitem_some_ne by done
    | rewrite lookup_insert_ne by done ].

(** a literal key is not in a literal list of other keys *)
Ltac not_in_keys :=
  rewrite !not_elem_of_cons, elem_of_nil; split_and!; (discriminate || tauto).

(** X14. The unset flags are left out and the ones set to [False] are sent:
    [create_text_collection] posts [indexPrefixTitle], [autoIndexes] and
    [imageIndex] exactly when they are not [None], with the passed truth
    value; [tags] and [createTime] are left out when empty. *)
Theorem text_payload_unset_is_not_false (a : TextArgs.t) :
  let payload := create_text_collection_payload a in
  payload !! "indexPrefixTitle" = JBool <$> TextArgs.index_prefix_title a
  ∧ payload !! "autoIndexes" = JBool <$> TextArgs.auto_indexes a
  ∧ payload !! "imageIndex" = JBool <$> TextArgs.image_index a
  ∧ payload !! "tags"
    = match TextArgs.tags a with
      | Some (t :: ts) => Some (JArr (JStr <$> t :: ts))
      | _ => None
      end
  ∧ payload !! "createTime"
    = match TextArgs.create_time a with
      | Some t => if String.eqb t "" then None else Some (JStr t)
      | None => None
      end.
Proof.
  cbv zeta. unfold create_text_collection_payload.
  assert (Hbase : ∀ k (p : gmap string json),
    k ∉ ["chunkSplitMode"; "chunkSize"; "indexSize"; "chunkSplitter"] →
    (if String.eqb (TextArgs.chunk_setting_mode a) "custom" then
       setitem_if (negb (String.eqb (TextArgs.chunk_splitter a) ""))
         "chunkSplitter" (JStr (TextArgs.chunk_splitter a))
         (<["indexSize" := JNum (TextArgs.index_size a)]>
            (<["chunkSize" := JNum (TextArgs.chunk_size a)]>
               (<["chunkSplitMode" := JStr (TextArgs.chunk_split_mode a)]>
                  p)))
     else p) !! k = p !! k).
  { intros k p Hk.
    rewrite !not_elem_of_cons in Hk. destruct Hk as (?&?&?&?&_).
    destruct (String.eqb _ "custom"); [|done]. by peel. }
  split_and!.
  - peel. rewrite lookup_setitem_some_eq.
    destruct (TextArgs.index_prefix_title a); [done|]. peel.
    rewrite Hbase; [done|]. not_in_keys.
  - peel. rewrite lookup_setitem_some_eq.
    destruct (TextArgs.auto_indexes a); [done|]. peel.
    rewrite Hbase; [done|]. not_in_keys.
  - peel. rewrite lookup_setitem_some_eq.
    destruct (TextArgs.image_index a); [done|]. peel.
    rewrite Hbase; [done|]. not_in_keys.
  - peel. rewrite lookup_setitem_if_eq.
    destruct (TextArgs.tags a) as [[|t ts]|]; cbn [truthy_list]; try done;
      peel; (rewrite Hbase; [done|]); not_in_keys.
  - rewrite lookup_setitem_if_eq.
    destruct (TextArgs.create_time a) as [t|]; cbn [truthy_str].
    + destruct (String.eqb t ""); cbn [negb]; [|done]. peel.
      rewrite Hbase; [done|]. not_in_keys.
    + peel. rewrite Hbase; [done|]. not_in_keys.
Qed.

(** X15. The three ingestion operations build their options alike: for the
    same option values, every key other than [text], [name], [link] and
    [metadata] has the same entry in the payload of
    [create_link_collection], in the payload of [create_text_collection]
    and in the metadata part of [create_file_collection]. *)
Theorem ingestion_payloads_agree (a : LinkArgs.t) (text name file_path : string)
    (file_name : option string) (k : string) :
  k ∉ own_keys →
  create_text_collection_payload (text_of_link a text name) !! k
  = create_link_collection_payload a !! k
  ∧ form_metadata_of (file_of_link a file_path file_name) !! k
    = create_link_collection_payload a !! k.
Proof.
  intros Hk.
  unfold own_keys in Hk. rewrite !not_elem_of_cons in Hk.
  destruct Hk as (?&?&?&?&_).
  unfold create_text_collection_payload, create_link_collection_payload,
    form_metadata_of, text_of_link, file_of_link. cbv zeta.
  cbn [TextArgs.text TextArgs.dataset_id TextArgs.name TextArgs.training_type
       TextArgs.parent_id TextArgs.index_prefix_title
       TextArgs.custom_pdf_parse TextArgs.auto_indexes TextArgs.image_index
       TextArgs.chunk_setting_mode TextArgs.chunk_split_mode
       TextArgs.chunk_size TextArgs.index_size TextArgs.chunk_splitter
       TextArgs.qa_prompt TextArgs.tags TextArgs.create_time
       TextArgs.metadata
       FileArgs.dataset_id FileArgs.training_type
       FileArgs.parent_id FileArgs.index_prefix_title
       FileArgs.custom_pdf_parse FileArgs.auto_indexes FileArgs.image_index
       FileArgs.chunk_setting_mode FileArgs.chunk_split_mode
       FileArgs.chunk_size FileArgs.index_size FileArgs.chunk_splitter
       FileArgs.qa_prompt FileArgs.tags FileArgs.create_time
       FileArgs.metadata].
  split;
    do 2 apply lookup_setitem_if_congr;
    do 3 apply lookup_setitem_some_congr;
    apply lookup_setitem_if_congr;
    (destruct (String.eqb (LinkArgs.chunk_setting_mode a) "custom");
     [apply lookup_setitem_if_congr; do 3 apply lookup_insert_congr|]);
    destruct (decide (k = "datasetId")) as [->|];
    try (by simplify_map_eq);
    destruct (decide (k = "parentId")) as [->|];
    try (by simplify_map_eq);
    destruct (decide (k = "trainingType")) as [->|];
    try (by simplify_map_eq);
    destruct (decide (k = "customPdfParse")) as [->|];
    try (by simplify_map_eq);
    destruct (decide (k = "chunkSettingMode")) as [->|];
    by simplify_map_eq.
Qed.

Lemma ingestion_payloads_agree_witness :
  create_text_collection_payload (text_of_link link_full "body" "doc")
    !! "qaPrompt"
  = create_link_collection_payload link_full !! "qaPrompt"
  ∧ form_metadata_of (file_of_link link_full "./a.pdf" None) !! "qaPrompt"
    = create_link_collection_payload link_full !! "qaPrompt".
Proof.
  refine (ingestion_payloads_agree link_full "body" "doc" "./a.pdf" None
            "qaPrompt" _).
  unfold own_keys. not_in_keys.
Defined.

End Payloads.

Section Ingestion.

Lemma cleanup_without_temp env s :
  temp_file_path s = None → cleanup env s = (Return (), s).
Proof.
  intros H. unfold cleanup, get_temp_file_path, mbind, M_bind, bind.
  by rewrite H.
Qed.

(** the resolution of a local path reads the file system and changes
    nothing *)
Lemma resolve_source_local env file_path s :
  is_url file_path = false →
  resolve_source env file_path s
  = (match files s !! file_path with
     | None => Raise (Exn FileNotFoundError (not_found_msg file_path))
     | Some _ =>
         if allowed (file_ext_of (basename file_path))
         then Return (file_path, basename file_path)
         else Raise (Exn ValueError
                       (unsupported_msg env (file_ext_of (basename file_path))))
     end, s).
Proof.
  intros Hu. unfold resolve_source. rewrite Hu.
  unfold mbind, M_bind, bind, os_path_exists.
  destruct (files s !! file_path) as [bytes|].
  - rewrite bool_decide_eq_true_2 by eauto. cbn [negb].
    by destruct (allowed _).
  - rewrite bool_decide_eq_false_2 by (by intros [? ?]). reflexivity.
Qed.

(** X16. Every failure of [create_file_collection] reaches the caller as
    the one error ["File Upload Failed: ..."] of class [Exception]: the call
    returns a value or raises that error, and nothing else. *)
Theorem file_failures_are_uniform env self (a : FileArgs.t) s :
  (∃ v, (create_file_collection env self a s).1 = Return v)
  ∨ (∃ m, (create_file_collection env self a s).1
          = Raise (Exn Exception ("File Upload Failed: " +:+ m))).
Proof.
  rewrite create_file_collection_unfold. cbn [fst].
  destruct (create_file_collection_body env self a _).1 as [v|e];
    [left|right]; by eexists.
Qed.

(** X17. For a local source the call downloads nothing, creates no
    temporary file and leaves the files on disk as they were, whether it
    succeeds or fails. *)
Theorem local_source_leaves_files env self (a : FileArgs.t) fs :
  is_url (FileArgs.file_path a) = false →
  let final := (create_file_collection env self a (start fs)).2 in
  files final = fs
  ∧ temp_file_path final = None
  ∧ (∀ ev, ev ∈ trace final → is_download ev = false).
Proof.
  intros Hu final. subst final.
  rewrite create_file_collection_unfold. cbn [snd].
  change (St (files (start fs)) (trace (start fs)) None) with (start fs).
  assert (Hbody :
    files (create_file_collection_body env self a (start fs)).2 = fs
    ∧ temp_file_path (create_file_collection_body env self a (start fs)).2
      = None
    ∧ ∀ ev, ev ∈ trace (create_file_collection_body env self a (start fs)).2 →
            is_download ev = false).
  { unfold create_file_collection_body, mbind, M_bind. unfold bind.
    rewrite (resolve_source_local _ _ _ Hu).
    destruct (files (start fs) !! FileArgs.file_path a);
      [|split_and!; [done|done|intros ev Hev; by inversion Hev]].
    destruct (allowed _);
      [|split_and!; [done|done|intros ev Hev; by inversion Hev]].
    match goal with
    | |- context [upload ?e ?sf ?p ?n ?md ?st] =>
        destruct (upload_keeps_files e sf p n md st) as [Hf Ht];
        pose proof (upload_trace e sf p n md st) as Htr
    end.
    split_and!; [done|done|].
    intros ev [Hold|[f ->]]%Htr; [by inversion Hold|done]. }
  destruct Hbody as (Hf & Ht & Htr).
  by rewrite (cleanup_without_temp _ _ Ht).
Qed.

Lemma local_source_leaves_files_witness :
  files (create_file_collection env_ok kb local_call (start local_fs)).2
  = local_fs.
Proof.
  exact (proj1 (local_source_leaves_files env_ok kb local_call local_fs
                  eq_refl)).
Defined.

(** X18. An existing local file whose extension is outside the allow-set is
    refused with the unsupported-format message before anything is sent,
    and the file stays where it is. *)
Theorem local_unsupported_sends_nothing env self (a : FileArgs.t) fs bytes :
  is_url (FileArgs.file_path a) = false →
  fs !! FileArgs.file_path a = Some bytes →
  file_ext_of (basename (FileArgs.file_path a)) ∉ ALLOWED_EXTENSIONS →
  create_file_collection env self a (start fs)
  = (Raise (Exn Exception
       ("File Upload Failed: "
        +:+ unsupported_msg env
              (file_ext_of (basename (FileArgs.file_path a))))),
     start fs).
Proof.
  intros Hu Hf Hext.
  apply (create_file_collection_wraps env self a fs
           (Exn ValueError
              (unsupported_msg env
                 (file_ext_of (basename (FileArgs.file_path a)))))
           (start fs)); [|done].
  apply body_raises_with_source.
  rewrite (resolve_source_local _ _ _ Hu). cbn [files start]. rewrite Hf.
  by rewrite not_allowed_false.
Qed.

Lemma local_unsupported_sends_nothing_witness :
  trace (create_file_collection env_ok kb png_call (start png_fs)).2 = []
  ∧ files (create_file_collection env_ok kb png_call (start png_fs)).2
    = png_fs.
Proof.
  rewrite (local_unsupported_sends_nothing env_ok kb png_call png_fs "PNG"
             eq_refl eq_refl).
  - split; reflexivity.
  - apply (bool_decide_eq_false_1 _). by vm_compute.
Defined.

(** X19. When the URL is accepted by [urlparse], its extension is allowed
    and the download is answered with a transport status in 400..599, the
    call fails with the text of that transport error; no temporary file has
    been created, the files on disk are as before and no upload is
    attempted. *)
Theorem failed_download_stops_the_call env self (a : FileArgs.t) fs r :
  is_url (FileArgs.file_path a) = true →
  parses env (FileArgs.file_path a) →
  file_ext_of (url_filename_of (FileArgs.file_path a)) ∈ ALLOWED_EXTENSIONS →
  http env (download_of a) = Response r →
  (400 ≤ status_code r < 600)%Z →
  create_file_collection env self a (start fs)
  = (Raise (Exn Exception ("File Upload Failed: " +:+ http_error_text r)),
     St fs [download_of a] None).
Proof.
  intros Hu Hp Hext Hget Hst.
  apply (create_file_collection_wraps env self a fs
           (Exn HTTPError (http_error_text r))); [|done].
  apply body_raises_with_source.
  unfold resolve_source. rewrite Hu.
  unfold mbind, M_bind. unfold bind at 1. unfold lift.
  rewrite (parses_path _ _ Hp). fold (url_filename_of (FileArgs.file_path a)).
  unfold allowed. rewrite bool_decide_eq_true_2 by done. cbn [negb].
  unfold send, emit, bind. unfold download_of in Hget.
  rewrite Hget. cbn [fst snd files trace temp_file_path start].
  unfold ret at 1. by rewrite raise_for_status_error.
Qed.

Lemma failed_download_stops_the_call_witness :
  create_file_collection env_forbidden kb pdf_url_call (start ∅)
  = (Raise (Exn Exception
       "File Upload Failed: 403 Client Error: Forbidden for url: https://host/doc.pdf"),
     St ∅ [download_of pdf_url_call] None).
Proof.
  refine (failed_download_stops_the_call env_forbidden kb pdf_url_call ∅
            (Resp 403 "Forbidden" "https://host/doc.pdf" "" (inl "no JSON"))
            eq_refl _ _ eq_refl _).
  - by eexists.
  - apply (bool_decide_eq_true_1 _). by vm_compute.
  - cbn. lia.
Defined.

(** the call on a URL whose download and staging succeed: what the upload
    gives, wrapped, and the temporary file deleted unless unlinking fails *)
Lemma url_run env self (a : FileArgs.t) fs r :
  is_url (FileArgs.file_path a) = true →
  parses env (FileArgs.file_path a) →
  file_ext_of (url_filename_of (FileArgs.file_path a)) ∈ ALLOWED_EXTENSIONS →
  http env (download_of a) = Response r →
  ¬ (400 ≤ status_code r < 600)%Z →
  mkstemp_error env = None →
  write_error env = None →
  let tmp :=
    temp_path env (file_ext_of (url_filename_of (FileArgs.file_path a))) in
  let staged := <[tmp := content r]> (<[tmp := ""]> fs) in
  let up :=
    upload env self tmp
      (quote (upload_name (FileArgs.name a)
                          (url_filename_of (FileArgs.file_path a))) "")
      (form_metadata_of a) (St staged [download_of a] (Some tmp)) in
  create_file_collection env self a (start fs)
  = (wrapped up.1,
     St (match unlink_error env tmp with
         | None => delete tmp staged
         | Some _ => staged
         end) (trace up.2) (Some tmp)).
Proof.
  intros Hu Hp Hext Hget Hst Hmk Hwr. cbv zeta.
  assert (Ha : allowed (file_ext_of (url_filename_of (FileArgs.file_path a)))
               = true) by (by apply bool_decide_eq_true_2).
  pose proof (resolve_source_download env _ (start fs) r Hu Hp Ha Hget Hst Hmk
                Hwr) as Hsrc.
  cbv zeta in Hsrc. cbn [files trace start app] in Hsrc.
  pose proof (temp_path_truthy env
                (file_ext_of (url_filename_of (FileArgs.file_path a))))
    as Htruthy.
  set (tmp := temp_path env _) in *.
  rewrite create_file_collection_unfold.
  change (St (files (start fs)) (trace (start fs)) None) with (start fs).
  unfold create_file_collection_body, mbind, M_bind. unfold bind.
  rewrite Hsrc. fold (download_of a).
  set (staged := <[tmp := content r]> (<[tmp := ""]> fs)).
  assert (Hstaged : staged !! tmp = Some (content r))
    by apply lookup_insert_eq.
  match goal with
  | |- context [upload ?e ?sf ?p ?n ?md ?st] =>
      destruct (upload_keeps_files e sf p n md st) as [Hf Ht];
      destruct (upload e sf p n md st) as [res [f t p']]
  end.
  cbn [fst snd files temp_file_path trace] in *. subst f p'.
  f_equal.
  unfold cleanup, get_temp_file_path, os_path_exists, os_unlink,
    mbind, M_bind, bind, try_except, ret, raise.
  cbn [temp_file_path files trace fst snd].
  rewrite Htruthy. cbv [default from_option id]. cbn [files].
  rewrite Hstaged.
  rewrite bool_decide_eq_true_2 by eauto.
  by destruct (unlink_error env tmp).
Qed.

(** X20. After a successful download of a URL that [urlparse] accepts,
    into a temporary file that can be read, the bytes that were downloaded
    are the bytes that are uploaded: exactly two requests leave the
    process, the download and then the multipart upload of that content
    with the metadata built from the options. *)
Theorem downloaded_bytes_are_uploaded env self (a : FileArgs.t) fs r :
  is_url (FileArgs.file_path a) = true →
  parses env (FileArgs.file_path a) →
  file_ext_of (url_filename_of (FileArgs.file_path a)) ∈ ALLOWED_EXTENSIONS →
  http env (download_of a) = Response r →
  ¬ (400 ≤ status_code r < 600)%Z →
  mkstemp_error env = None →
  write_error env = None →
  open_error env
    (temp_path env (file_ext_of (url_filename_of (FileArgs.file_path a))))
  = None →
  ∃ name,
    trace (create_file_collection env self a (start fs)).2
    = [download_of a;
       PostFile (base_url self +:+ "/core/dataset/collection/create/localFile")
                (delete "Content-Type" (headers self)) name (content r)
                (form_metadata_of a)].
Proof.
  intros Hu Hp Hext Hget Hst Hmk Hwr Hop.
  rewrite (url_run env self a fs r Hu Hp Hext Hget Hst Hmk Hwr).
  cbn [snd trace].
  rewrite upload_unfold, Hop. cbn [files]. rewrite lookup_insert_eq.
  cbv zeta. eexists.
  match goal with
  | |- context [http env (PostFile ?u ?h ?n ?c ?md)] =>
      by destruct (http env (PostFile u h n c md))
  end.
Qed.

Lemma downloaded_bytes_are_uploaded_witness :
  ∃ name,
    trace (create_file_collection env_ok kb pdf_url_call (start ∅)).2
    = [download_of pdf_url_call;
       PostFile (base_url kb +:+ "/core/dataset/collection/create/localFile")
                (delete "Content-Type" (headers kb)) name "PDFBYTES"
                (form_metadata_of pdf_url_call)].
Proof.
  refine (downloaded_bytes_are_uploaded env_ok kb pdf_url_call ∅
            (Resp 200 "OK" "https://host/doc.pdf" "PDFBYTES" (inl "no JSON"))
            eq_refl _ _ eq_refl _ eq_refl eq_refl eq_refl).
  - by eexists.
  - apply (bool_decide_eq_true_1 _). by vm_compute.
  - cbn. lia.
Defined.

(** X21. A call on a URL leaves the disk as it found it: when the name of
    the temporary file is new and its deletion does not fail, the files
    after the call are the files before it, whether the upload succeeded
    or not. *)
Theorem url_call_restores_files env self (a : FileArgs.t) fs r :
  is_url (FileArgs.file_path a) = true →
  file_ext_of (url_filename_of (FileArgs.file_path a)) ∈ ALLOWED_EXTENSIONS →
  http env (download_of a) = Response r →
  ¬ (400 ≤ status_code r < 600)%Z →
  mkstemp_error env = None →
  write_error env = None →
  let tmp :=
    temp_path env (file_ext_of (url_filename_of (FileArgs.file_path a))) in
  fs !! tmp = None →
  unlink_error env tmp = None →
  files (create_file_collection env self a (start fs)).2 = fs.
Proof.
  intros Hu Hext Hget Hst Hmk Hwr tmp Hnew Hun.
  destruct (urlparse_path env (FileArgs.file_path a)) as [path|e] eqn:Hparse.
  - assert (Hp : parses env (FileArgs.file_path a)) by (by exists path).
    rewrite (url_run env self a fs r Hu Hp Hext Hget Hst Hmk Hwr).
    cbn [snd files]. fold tmp. rewrite Hun, !delete_insert_eq.
    by apply delete_id.
  - by rewrite (create_file_collection_wraps env self a fs e (start fs)
                  (body_raises_with_source _ _ _ _ _ _
                     (resolve_source_unparsed _ _ _ _ Hu Hparse)) eq_refl).
Qed.

Lemma url_call_restores_files_witness :
  files (create_file_collection env_rejecting kb pdf_url_call
           (start local_fs)).2
  = local_fs.
Proof.
  refine (url_call_restores_files env_rejecting kb pdf_url_call local_fs
            (Resp 200 "OK" "" "" (inr (JObj (boom_body 500))))
            eq_refl _ eq_refl _ eq_refl eq_refl eq_refl eq_refl).
  - apply (bool_decide_eq_true_1 _). by vm_compute.
  - cbn. lia.
Defined.

Lemma collection_id_of_no_data (m : gmap string json) s :
  m !! "data" = None →
  collection_id_of (JObj m) s = (Raise (Exn KeyError "'data'"), s).
Proof.
  intros Hd. unfold collection_id_of. unfold_M. cbn. by rewrite Hd.
Qed.

(** X22. The upload does not look at the service-level [code]: when its
    answer passes the transport check and is a JSON object without [data],
    such as an error body with [code] 500 and a message, the call fails
    with the [KeyError] of the missing key, ["File Upload Failed: 'data'"],
    and the message of the service is lost. *)
Theorem upload_answer_without_data env self (a : FileArgs.t) fs ev r m :
  ev ∈ trace (create_file_collection env self a (start fs)).2 →
  is_Some (upload_filename ev) →
  http env ev = Response r →
  ¬ (400 ≤ status_code r < 600)%Z →
  json_body r = inr (JObj m) →
  m !! "data" = None →
  (create_file_collection env self a (start fs)).1
  = Raise (Exn Exception "File Upload Failed: 'data'").
Proof.
  intros Hev Hup Hhttp Hst Hbody Hd.
  destruct (create_file_collection_trace _ _ _ _ _ Hev)
    as [->|(p & filename & s1 & _ & Hs1 & Hin & ->)].
  { by destruct Hup. }
  assert (Hnew : ev ∉ trace s1).
  { intros Hold. apply Hs1 in Hold. subst ev. by destruct Hup. }
  revert Hin. rewrite upload_unfold.
  destruct (open_error env p); [done|].
  destruct (files s1 !! p) as [f|]; [|done].
  cbv zeta. set (ev0 := PostFile _ _ _ _ _).
  assert (Hin : ∀ x : result json,
    ev ∈ trace (x, St (files s1) (trace s1 ++ [ev0]) (temp_file_path s1)).2 →
    ev = ev0).
  { intros x [?| ->%list_elem_of_singleton]%elem_of_app; done. }
  destruct (http env ev0) as [t|r0] eqn:Hev0; intros ->%Hin; [congruence|].
  assert (r0 = r) as -> by congruence. cbn [fst].
  unfold mbind, M_bind. unfold bind at 1.
  rewrite raise_for_status_ok by done.
  unfold response_json. rewrite Hbody. unfold bind, ret.
  by rewrite (collection_id_of_no_data _ _ Hd).
Qed.

Lemma upload_answer_without_data_witness :
  (create_file_collection env_rejecting kb local_call (start local_fs)).1
  = Raise (Exn Exception "File Upload Failed: 'data'").
Proof.
  refine (upload_answer_without_data env_rejecting kb local_call local_fs
            local_upload (Resp 200 "OK" "" "" (inr (JObj (boom_body 500))))
            (boom_body 500) _ _ eq_refl _ eq_refl eq_refl).
  - apply list_elem_of_In. vm_compute. left. reflexivity.
  - by eexists.
  - cbn. lia.
Defined.

(** X23. Whatever the upload sends is the multipart request to the
    [localFile] endpoint with the encoded upload name, the metadata built
    from the options, and the client's headers without [Content-Type]; for
    a client made by the constructor the only header left is
    [Authorization]. *)
Theorem upload_request_shape env self (a : FileArgs.t) fs ev :
  ev ∈ trace (create_file_collection env self a (start fs)).2 →
  is_download ev = false →
  (∃ bytes, ev = upload_of self a bytes)
  ∧ (∀ b api_key, self = __init__ b api_key →
       ∃ bytes,
         ev = PostFile
                (rstrip "/" b +:+ "/core/dataset/collection/create/localFile")
                {[ "Authorization" := "Bearer " +:+ api_key ]}
                (quote (upload_name (FileArgs.name a)
                          (display_name (FileArgs.file_path a))) "")
                bytes (form_metadata_of a)).
Proof.
  intros Hev Hdl.
  assert (Hshape : ∃ bytes, ev = upload_of self a bytes).
  { destruct (create_file_collection_trace _ _ _ _ _ Hev)
      as [->|(p & filename & s1 & Hsrc & Hs1 & Hin & _)]; [done|].
    apply resolve_source_filename in Hsrc as ->.
    apply upload_trace in Hin as [Hold|[f ->]]; [|by exists f].
    apply Hs1 in Hold. by subst ev. }
  split; [exact Hshape|].
  intros b api_key ->. destruct Hshape as [bytes ->]. exists bytes.
  unfold upload_of, __init__. cbn [base_url headers]. reflexivity.
Qed.

Lemma upload_request_shape_witness :
  ∃ bytes, local_upload = upload_of kb local_call bytes.
Proof.
  refine (proj1 (upload_request_shape env_ok kb local_call local_fs
                   local_upload _ eq_refl)).
  apply list_elem_of_In. vm_compute. left. reflexivity.
Defined.

End Ingestion.

Section Names.

Lemma unquote_percent (c : ascii) (rest : string) :
  unquote (percent c +:+ rest) = String c (unquote rest).
Proof. by destruct c as [[] [] [] [] [] [] [] []]. Qed.

Lemma always_safe_not_percent (c : ascii) :
  always_safe c = true → Ascii.eqb c "%" = false.
Proof. by destruct c as [[] [] [] [] [] [] [] []]. Qed.

(** X24. Percent-decoding undoes the encoding of the upload name:
    [unquote(quote(s, safe=''))] is [s] for every string, so the receiver
    of the multipart request can recover the chosen name. *)
Theorem unquote_quote (s : string) : unquote (quote s "") = s.
Proof.
  induction s as [|c s IH]; [done|].
  cbn [quote in_str]. rewrite orb_false_r.
  destruct (always_safe c) eqn:Hc.
  - rewrite app_cons, app_nil. cbn [unquote].
    by rewrite (always_safe_not_percent c Hc), IH.
  - by rewrite unquote_percent, IH.
Qed.

Lemma split_no_sep (sep : ascii) (s : string) :
  in_str sep s = false → split sep s = [s].
Proof.
  induction s as [|c s IH]; [done|]. cbn [in_str split].
  intros [Hc Hs]%orb_false_iff. rewrite Hc. by rewrite (IH Hs).
Qed.

Lemma split_has_sep (sep : ascii) (s : string) :
  in_str sep s = true → ∃ h x t, split sep s = h :: x :: t.
Proof.
  induction s as [|c s IH]; [done|]. cbn [in_str split].
  destruct (Ascii.eqb c sep) eqn:Hc.
  - intros _. destruct (split sep s) as [|x t] eqn:Hs; [|by eauto].
    by destruct s; cbn in Hs; repeat case_match.
  - cbn [orb]. intros (h & x & t & ->)%IH. eauto.
Qed.

Lemma last_item_split_step (sep c : ascii) (r : string) :
  last_item (split sep (String c r))
  = if Ascii.eqb c sep then last_item (split sep r)
    else if in_str sep r then last_item (split sep r)
    else String c r.
Proof.
  cbn [split]. destruct (Ascii.eqb c sep).
  - destruct (in_str sep r) eqn:Hr.
    + destruct (split_has_sep _ _ Hr) as (h & x & t & ->). done.
    + by rewrite (split_no_sep _ _ Hr).
  - destruct (in_str sep r) eqn:Hr.
    + destruct (split_has_sep _ _ Hr) as (h & x & t & ->). done.
    + by rewrite (split_no_sep _ _ Hr).
Qed.

Lemma in_str_app_sep (sep : ascii) (base ext : string) :
  in_str sep (base +:+ String sep ext) = true.
Proof.
  induction base as [|c base IH].
  - rewrite app_nil. cbn. by rewrite Ascii.eqb_refl.
  - rewrite app_cons. cbn [in_str]. by rewrite IH, orb_true_r.
Qed.

Lemma last_item_split_app (sep : ascii) (base ext : string) :
  in_str sep ext = false →
  last_item (split sep (base +:+ String sep ext)) = ext.
Proof.
  intros Hext. induction base as [|c base IH].
  - rewrite app_nil, last_item_split_step, Ascii.eqb_refl.
    by rewrite (split_no_sep _ _ Hext).
  - rewrite app_cons, last_item_split_step, in_str_app_sep, IH.
    by destruct (Ascii.eqb c sep).
Qed.

(** X25. The extension is what follows the last dot of the name, in lower
    case, whatever precedes it; a name without a dot has the empty
    extension, which the allow-set refuses. *)
Theorem file_ext_of_last_dot :
  (∀ base ext, in_str "." ext = false →
     file_ext_of (base +:+ "." +:+ ext) = lower ext)
  ∧ (∀ name, in_str "." name = false →
       file_ext_of name = "" ∧ allowed (file_ext_of name) = false).
Proof.
  split.
  - intros base ext Hext. unfold file_ext_of.
    change ("." +:+ ext) with (String "." ext).
    by rewrite in_str_app_sep, last_item_split_app.
  - intros name Hn. unfold file_ext_of. rewrite Hn. split; [done|].
    by vm_compute.
Qed.

Lemma file_ext_of_last_dot_witness :
  file_ext_of ("report.final" +:+ "." +:+ "PDF") = lower "PDF"
  ∧ allowed (file_ext_of "README") = false.
Proof.
  split.
  - exact (proj1 file_ext_of_last_dot "report.final" "PDF" eq_refl).
  - exact (proj2 (proj2 file_ext_of_last_dot "README" eq_refl)).
Defined.

End Names.

Section Traffic.

Lemma resolve_source_trace_exact env file_path s :
  trace (resolve_source env file_path s).2 = trace s
  ∨ trace (resolve_source env file_path s).2
    = (trace s ++ [Get file_path 30])%list.
Proof.
  unfold resolve_source, NamedTemporaryFile, file_write, set_temp_file_path,
    os_path_exists.
  unfold_M. cbn.
  repeat case_match; simplify_eq/=; auto.
Qed.

(** X27. One call of [create_file_collection] sends at most two requests,
    and in this order: at most one download, of the given URL with a
    timeout of 30, and then at most one upload.  Nothing is retried. *)
Theorem at_most_one_download_then_one_upload env self (a : FileArgs.t) fs :
  let sent_by_call := trace (create_file_collection env self a (start fs)).2 in
  sent_by_call = []
  ∨ sent_by_call = [download_of a]
  ∨ (∃ bytes, sent_by_call = [upload_of self a bytes])
  ∨ (∃ bytes, sent_by_call = [download_of a; upload_of self a bytes]).
Proof.
  cbv zeta. rewrite create_file_collection_unfold. cbn [snd].
  rewrite cleanup_keeps_trace.
  change (St (files (start fs)) (trace (start fs)) None) with (start fs).
  unfold create_file_collection_body, mbind, M_bind. unfold bind.
  pose proof (resolve_source_trace_exact env (FileArgs.file_path a) (start fs))
    as Htr.
  destruct (resolve_source env (FileArgs.file_path a) (start fs))
    as [[[p filename]|e] s1] eqn:Hsrc; cbn [snd trace start app] in Htr.
  - apply resolve_source_filename in Hsrc as ->.
    rewrite upload_unfold. fold (download_of a) in Htr.
    destruct (open_error env p); [cbn [snd]; tauto|].
    destruct (files s1 !! p) as [f|]; [|cbn [snd]; tauto].
    cbv zeta. fold (upload_of self a f).
    destruct (http env _); cbn [snd trace];
      destruct Htr as [-> | ->]; cbn [app]; eauto 6.
  - cbn [snd]. fold (download_of a) in Htr. tauto.
Qed.

(** X28. The success property of [BaseResponse] and the check of
    [_request] do not agree: every non-zero integer [code] that [_request]
    lets through counts as a success, but the codes 202 to 299 count as a
    success and are refused by [_request]. *)
Theorem is_success_wider_than_request (r : BaseResponse.t) :
  (BaseResponse.code r ≠ 0%Z →
   code_accepted {[ "code" := JNum (BaseResponse.code r) ]} →
   BaseResponse.is_success r = true)
  ∧ ((202 ≤ BaseResponse.code r < 300)%Z →
     BaseResponse.is_success r = true
     ∧ ¬ code_accepted {[ "code" := JNum (BaseResponse.code r) ]}).
Proof.
  unfold BaseResponse.is_success. split.
  - intros Hnz [Hn|[(c & Hc & Ht)|(c & Hc & Hi)]].
    + by rewrite lookup_singleton_eq in Hn.
    + rewrite lookup_singleton_eq in Hc. injection Hc as <-. cbn in Ht.
      apply negb_false_iff, Z.eqb_eq in Ht. done.
    + rewrite lookup_singleton_eq in Hc. injection Hc as <-. cbn in Hi.
      rewrite orb_false_r in Hi.
      apply orb_true_iff in Hi as [->%Z.eqb_eq| ->%Z.eqb_eq]; reflexivity.
  - intros Hr. split.
    + apply andb_true_iff. split; [apply Z.leb_le|apply Z.ltb_lt]; lia.
    + intros [Hn|[(c & Hc & Ht)|(c & Hc & Hi)]].
      * by rewrite lookup_singleton_eq in Hn.
      * rewrite lookup_singleton_eq in Hc. injection Hc as <-. cbn in Ht.
        apply negb_false_iff, Z.eqb_eq in Ht. lia.
      * rewrite lookup_singleton_eq in Hc. injection Hc as <-. cbn in Hi.
        rewrite orb_false_r in Hi.
        apply orb_true_iff in Hi as [?%Z.eqb_eq|?%Z.eqb_eq]; lia.
Qed.

Lemma is_success_wider_than_request_witness :
  BaseResponse.is_success (BaseResponse.Make 204 "" "No Content" JNull) = true
  ∧ ¬ code_accepted {[ "code" := JNum 204 ]}.
Proof.
  refine (proj2 (is_success_wider_than_request
                   (BaseResponse.Make 204 "" "No Content" JNull)) _).
  cbn. lia.
Defined.

End Traffic.
